(** * Ground drive controller (flight/modules/PathFollower/grounddrivecontroller.cpp)

    A shallow embedding of the OpenPilot ground path-follower controller:
    the lifecycle (Initialize / Activate / Deactivate / SettingsUpdated) and
    the control cycle (UpdateAutoPilot and the three private steps it runs).

    - C [float] is IEEE-754 binary32, taken from the standard library's
      executable [SpecFloat] operations at precision 24 and exponent 128.
    - The member functions mutate the controller object, the structures it
      points to and the UAVObject store; that is one [Machine] record
      threaded through a state monad whose result is either [Returned] or
      [Halted] (failed assertion, null dereference).
    - Code the file calls but does not contain (libm's [atan2f], the
      [RAD2DEG] macro, [path_progress] of the path library, the two stage
      laws of the PID cascade) is gathered in one record of externals that
      every theorem quantifies over. *)

From Stdlib Require Import ZArith Bool Lia.
From Stdlib Require Import SpecFloat.

Local Open Scope Z_scope.

(** ** binary32 arithmetic *)

Definition float : Type := spec_float.

Module F32.

Definition prec : Z := 24.
Definition emax : Z := 128.

Definition zero : float := S754_zero false.

Definition add : float -> float -> float := SFadd prec emax.
Definition sub : float -> float -> float := SFsub prec emax.
Definition mul : float -> float -> float := SFmul prec emax.
Definition div : float -> float -> float := SFdiv prec emax.
Definition sqrt : float -> float := SFsqrt prec emax.

(** C's [<], [<=] on floats: false as soon as one side is a NaN. *)
Definition ltb : float -> float -> bool := SFltb.
Definition leb : float -> float -> bool := SFleb.

(** Integer to float conversion, and integral literals such as [1000.0f]:
    rounded to nearest, ties to even. *)
Definition of_Z (n : Z) : float := binary_normalize prec emax n 0 false.

End F32.

(** ** UAVObject data (the fields this file reads or writes) *)

(** PositionStateData, VelocityStateData, VelocityDesiredData and the
    North/East/Down sub-structures of PathDesiredData. *)
Record NED : Type := mkNED {
  North : float;
  East  : float;
  Down  : float
}.

Definition PositionStateData := NED.
Definition VelocityStateData := NED.
Definition VelocityDesiredData := NED.

Record PathDesiredData : Type := mkPathDesired {
  pd_Start : NED;
  pd_End   : NED;
  pd_StartingVelocity : float;
  pd_EndingVelocity   : float;
  pd_Mode  : Z                      (* uint8_t *)
}.

Inductive PathStatusStatus : Type :=
| PATHSTATUS_STATUS_INPROGRESS
| PATHSTATUS_STATUS_COMPLETED
| PATHSTATUS_STATUS_WARNING
| PATHSTATUS_STATUS_CRITICAL.

Record PathStatusData : Type := mkPathStatus {
  path_time : float;
  Status    : PathStatusStatus;
  error     : float;
  fractional_progress  : float;
  path_direction_north : float;
  path_direction_east  : float;
  path_direction_down  : float;
  correction_direction_north : float;
  correction_direction_east  : float;
  correction_direction_down  : float
}.

(** [struct path_status] of paths.h: what [path_progress] fills in.  It has
    no field through which the path library could report a failure. *)
Record path_status : Type := mkProgress {
  ps_error : float;
  ps_fractional_progress : float;
  ps_path_vector : float * float * float;
  ps_correction_vector : float * float * float
}.

Record SpeedPIData : Type := mkSpeedPI {
  Kp : float; Ki : float; Kd : float; Beta : float
}.

Record ThrustLimitData : Type := mkThrustLimit {
  Min : float; Max : float
}.

(** GroundPathFollowerSettingsData.  [UpdatePeriod] is the integer number
    of milliseconds of the settings object; the division by [1000.0f]
    converts it to float first. *)
Record GroundPathFollowerSettingsData : Type := mkSettings {
  HorizontalPosP   : float;
  SpeedPI          : SpeedPIData;
  UpdatePeriod     : Z;
  HorizontalVelMax : float;
  ThrustLimit      : ThrustLimitData;
  VelocityFeedForward : float;
  CourseFeedForward   : float
}.

Inductive StabilizationMode : Type :=
| STABILIZATIONDESIRED_STABILIZATIONMODE_MANUAL
| STABILIZATIONDESIRED_STABILIZATIONMODE_RATE
| STABILIZATIONDESIRED_STABILIZATIONMODE_ATTITUDE.

Record StabilizationModeData : Type := mkStabMode {
  sm_Roll : StabilizationMode;
  sm_Pitch : StabilizationMode;
  sm_Yaw : StabilizationMode;
  sm_Thrust : StabilizationMode
}.

Record StabilizationDesiredData : Type := mkStabDesired {
  Roll   : float;
  Pitch  : float;
  Yaw    : float;
  Thrust : float;
  StabilizationModes : StabilizationModeData
}.

Inductive AlarmSeverity : Type :=
| SYSTEMALARMS_ALARM_UNINITIALISED
| SYSTEMALARMS_ALARM_OK
| SYSTEMALARMS_ALARM_WARNING
| SYSTEMALARMS_ALARM_CRITICAL
| SYSTEMALARMS_ALARM_ERROR.

(** ** The North-East cascade controller ([controlNE], class PIDControlNE) *)

(** Modelled from the spec: the state of the PIDControlNE object (pid
    library, not among the sources), after sections 3 and 4.3: the
    parameters its three update operations receive, the velocity state and
    desired velocity it stores, and the internal state
    {integrator, last command, armed flag}. *)
Record PIDControlNE : Type := mkNE {
  ne_positionGain : float;
  ne_Kp : float;
  ne_Ki : float;
  ne_Kd : float;
  ne_Beta : float;
  ne_dT : float;
  ne_velMax : float;
  ne_cmdMin : float;
  ne_cmdMax : float;
  ne_feedForward : float;
  ne_velocityState : float * float;
  ne_velocityDesired : float * float;
  ne_integrator : float * float;
  ne_lastCommand : float * float;
  ne_armed : bool
}.

Module NE.

(** Modelled from the spec: the PIDControlNE constructor; everything
    zero, disarmed. *)
Definition init : PIDControlNE :=
  let z := F32.zero in
  mkNE z z z z z z z z z z (z, z) (z, z) (z, z) (z, z) false.

(** Modelled from the spec: PIDControlNE::Activate, section 4.3:
    "resets the integrator and cached command to zero and marks the stage
    armed". *)
Definition Activate (c : PIDControlNE) : PIDControlNE :=
  mkNE (ne_positionGain c) (ne_Kp c) (ne_Ki c) (ne_Kd c) (ne_Beta c)
       (ne_dT c) (ne_velMax c) (ne_cmdMin c) (ne_cmdMax c)
       (ne_feedForward c) (ne_velocityState c) (ne_velocityDesired c)
       (F32.zero, F32.zero) (F32.zero, F32.zero) true.

(** Modelled from the spec: PIDControlNE::Deactivate, section 4.3:
    "zeros the same state and marks it disarmed". *)
Definition Deactivate (c : PIDControlNE) : PIDControlNE :=
  mkNE (ne_positionGain c) (ne_Kp c) (ne_Ki c) (ne_Kd c) (ne_Beta c)
       (ne_dT c) (ne_velMax c) (ne_cmdMin c) (ne_cmdMax c)
       (ne_feedForward c) (ne_velocityState c) (ne_velocityDesired c)
       (F32.zero, F32.zero) (F32.zero, F32.zero) false.

(** Modelled from the spec: PIDControlNE::UpdatePositionalParameters,
    section 4.3 [updatePositionalParameters(gain)]; a re-parameterization
    "never retroactively rewrites the integrator". *)
Definition UpdatePositionalParameters (kp : float) (c : PIDControlNE)
  : PIDControlNE :=
  mkNE kp (ne_Kp c) (ne_Ki c) (ne_Kd c) (ne_Beta c)
       (ne_dT c) (ne_velMax c) (ne_cmdMin c) (ne_cmdMax c)
       (ne_feedForward c) (ne_velocityState c) (ne_velocityDesired c)
       (ne_integrator c) (ne_lastCommand c) (ne_armed c).

(** Modelled from the spec: PIDControlNE::UpdateParameters, section 4.3
    [updateLoopParameters(Kp, Ki, Kd, Beta, dt, velMax)]. *)
Definition UpdateParameters (kp ki kd beta dT velocityMax : float)
           (c : PIDControlNE) : PIDControlNE :=
  mkNE (ne_positionGain c) kp ki kd beta dT velocityMax
       (ne_cmdMin c) (ne_cmdMax c)
       (ne_feedForward c) (ne_velocityState c) (ne_velocityDesired c)
       (ne_integrator c) (ne_lastCommand c) (ne_armed c).

(** Modelled from the spec: PIDControlNE::UpdateCommandParameters,
    section 4.3 [updateCommandParameters(min, max, feedForward)]. *)
Definition UpdateCommandParameters (minCommand maxCommand ff : float)
           (c : PIDControlNE) : PIDControlNE :=
  mkNE (ne_positionGain c) (ne_Kp c) (ne_Ki c) (ne_Kd c) (ne_Beta c)
       (ne_dT c) (ne_velMax c) minCommand maxCommand ff
       (ne_velocityState c) (ne_velocityDesired c)
       (ne_integrator c) (ne_lastCommand c) (ne_armed c).

(** Modelled from the spec: PIDControlNE::UpdateVelocityState, section
    4.3: the current velocity is "supplied externally each cycle via an
    explicit update velocity state call". *)
Definition UpdateVelocityState (n e : float) (c : PIDControlNE)
  : PIDControlNE :=
  mkNE (ne_positionGain c) (ne_Kp c) (ne_Ki c) (ne_Kd c) (ne_Beta c)
       (ne_dT c) (ne_velMax c) (ne_cmdMin c) (ne_cmdMax c)
       (ne_feedForward c) (n, e) (ne_velocityDesired c)
       (ne_integrator c) (ne_lastCommand c) (ne_armed c).

(** Modelled from the spec: PIDControlNE::GetVelocityDesired, section
    4.3 [getVelocityDesired()]: the desired velocity stored by the outer
    stage. *)
Definition GetVelocityDesired (c : PIDControlNE) : float * float :=
  ne_velocityDesired c.

Section Stages.

(** The laws of the two stages are described only in prose (gains,
    anti-windup, derivative filter, clamping); they stay parameters. *)
Variable outerStage : PIDControlNE -> path_status -> float * float.
Variable innerStage :
  PIDControlNE -> (float * float) * (float * float).

(** Modelled from the spec: PIDControlNE::ControlPositionWithPath,
    section 4.3 [controlPositionWithPath(progress)]: "runs outer stage,
    stores desired velocity". *)
Definition ControlPositionWithPath (progress : path_status)
           (c : PIDControlNE) : PIDControlNE :=
  mkNE (ne_positionGain c) (ne_Kp c) (ne_Ki c) (ne_Kd c) (ne_Beta c)
       (ne_dT c) (ne_velMax c) (ne_cmdMin c) (ne_cmdMax c)
       (ne_feedForward c) (ne_velocityState c) (outerStage c progress)
       (ne_integrator c) (ne_lastCommand c) (ne_armed c).

(** Modelled from the spec: PIDControlNE::GetNECommand, section 4.3
    [getCommand()]: "runs inner stage ..., returns command vector"; the
    stage yields the command and the next integrator, the command is
    kept as the last command. *)
Definition GetNECommand (c : PIDControlNE)
  : (float * float) * PIDControlNE :=
  let r := innerStage c in
  (fst r,
   mkNE (ne_positionGain c) (ne_Kp c) (ne_Ki c) (ne_Kd c) (ne_Beta c)
        (ne_dT c) (ne_velMax c) (ne_cmdMin c) (ne_cmdMax c)
        (ne_feedForward c) (ne_velocityState c) (ne_velocityDesired c)
        (snd r) (fst r) (ne_armed c)).

End Stages.

End NE.

(** ** Code outside this file *)

Record Externals : Type := mkExternals {
  (** libm *)
  atan2f : float -> float -> float;
  (** pios_math.h macro: radians to the degrees of the Yaw field *)
  RAD2DEG : float -> float;
  (** paths.c: [path_progress(path, cur_point, &status, mode3D)] *)
  path_progress :
    PathDesiredData -> float * float * float -> bool -> path_status;
  (** the two stage laws of the cascade *)
  outerStage : PIDControlNE -> path_status -> float * float;
  innerStage : PIDControlNE -> (float * float) * (float * float)
}.

(** Modelled from the spec: [squaref] of mathmisc.h (not among the
    sources), section 4.4: the squares in "sqrt(north^2 + east^2)". *)
Definition squaref (x : float) : float := F32.mul x x.

(** Modelled from the spec: [boundf] of mathmisc.h (not among the
    sources), section 4.4: "clamp throttleMagnitude to
    [thrustMin, thrustMax]". *)
Definition boundf (val lo hi : float) : float :=
  if F32.ltb val lo then lo
  else if F32.ltb hi val then hi
  else val.

(** ** The machine state *)

(** The members of GroundDriveController.  [groundSettings] is a pointer,
    null ([None]) until Initialize stores one; the settings it points to are
    read through it at each use. *)
Record GroundDriveController : Type := mkController {
  groundSettings : option GroundPathFollowerSettingsData;
  mActive : bool;
  mMode : Z;                        (* uint8_t *)
  controlNE : PIDControlNE
}.

(** The UAVObject store, as far as this file gets and sets it, and the
    guidance entry of the system alarms. *)
Record UAVObjects : Type := mkObjects {
  obj_PositionState : PositionStateData;
  obj_VelocityState : VelocityStateData;
  obj_VelocityDesired : VelocityDesiredData;
  obj_StabilizationDesired : StabilizationDesiredData;
  obj_PathStatus : PathStatusData;
  alarm_GUIDANCE : AlarmSeverity
}.

(** The controller object, the two structures the base class points to
    ([*pathDesired], [*pathStatus]) and the object store. *)
Record Machine : Type := mkMachine {
  this : GroundDriveController;
  pathDesired : PathDesiredData;
  pathStatus : PathStatusData;
  uavo : UAVObjects
}.

(** ** Results and the state monad *)

Inductive fault : Type :=
| AssertionFailed
| NullDereference.

Inductive outcome (A : Type) : Type :=
| Returned (a : A)
| Halted (f : fault).

Arguments Returned {A} a.
Arguments Halted {A} f.

Definition M (A : Type) : Type := Machine -> outcome (A * Machine).

Definition ret {A} (a : A) : M A := fun s => Returned (a, s).

Definition bind {A B} (m : M A) (k : A -> M B) : M B :=
  fun s =>
    match m s with
    | Returned (a, s') => k a s'
    | Halted f => Halted f
    end.

Definition halt {A} (f : fault) : M A := fun _ => Halted f.

Definition gets {A} (f : Machine -> A) : M A := fun s => Returned (f s, s).

Definition modify (f : Machine -> Machine) : M unit :=
  fun s => Returned (tt, f s).

Notation "x <- m ;; k" := (bind m (fun x => k))
  (at level 61, m at next level, right associativity).
Notation "m ;; k" := (bind m (fun _ => k))
  (at level 61, right associativity).

(** *** Field updates *)

Definition set_this (f : GroundDriveController -> GroundDriveController)
           (s : Machine) : Machine :=
  mkMachine (f (this s)) (pathDesired s) (pathStatus s) (uavo s).

Definition set_pathStatus (f : PathStatusData -> PathStatusData)
           (s : Machine) : Machine :=
  mkMachine (this s) (pathDesired s) (f (pathStatus s)) (uavo s).

Definition set_uavo (f : UAVObjects -> UAVObjects) (s : Machine) : Machine :=
  mkMachine (this s) (pathDesired s) (pathStatus s) (f (uavo s)).

Definition with_groundSettings (p : option GroundPathFollowerSettingsData)
           (c : GroundDriveController) : GroundDriveController :=
  mkController p (mActive c) (mMode c) (controlNE c).

Definition with_mActive (b : bool) (c : GroundDriveController)
  : GroundDriveController :=
  mkController (groundSettings c) b (mMode c) (controlNE c).

Definition with_mMode (m : Z) (c : GroundDriveController)
  : GroundDriveController :=
  mkController (groundSettings c) (mActive c) m (controlNE c).

Definition with_controlNE (f : PIDControlNE -> PIDControlNE)
           (c : GroundDriveController) : GroundDriveController :=
  mkController (groundSettings c) (mActive c) (mMode c) (f (controlNE c)).

Definition with_path_time (t : float) (p : PathStatusData)
  : PathStatusData :=
  mkPathStatus t (Status p) (error p) (fractional_progress p)
               (path_direction_north p) (path_direction_east p)
               (path_direction_down p)
               (correction_direction_north p) (correction_direction_east p)
               (correction_direction_down p).

Definition with_Status (st : PathStatusStatus) (p : PathStatusData)
  : PathStatusData :=
  mkPathStatus (path_time p) st (error p) (fractional_progress p)
               (path_direction_north p) (path_direction_east p)
               (path_direction_down p)
               (correction_direction_north p) (correction_direction_east p)
               (correction_direction_down p).

(** The eight assignments at the end of updatePathVelocity;
    [path_vector[0..2]] and [correction_vector[0..2]] are the components of
    the triples. *)
Definition with_progress (g : path_status) (p : PathStatusData)
  : PathStatusData :=
  mkPathStatus (path_time p) (Status p) (ps_error g)
               (ps_fractional_progress g)
               (fst (fst (ps_path_vector g)))
               (snd (fst (ps_path_vector g)))
               (snd (ps_path_vector g))
               (fst (fst (ps_correction_vector g)))
               (snd (fst (ps_correction_vector g)))
               (snd (ps_correction_vector g)).

(** *** Primitive actions *)

(** [groundSettings->...]: reading through a null pointer never yields a
    value. *)
Definition deref_groundSettings : M GroundPathFollowerSettingsData :=
  fun s =>
    match groundSettings (this s) with
    | Some gs => Returned (gs, s)
    | None => Halted NullDereference
    end.

(** Modelled from the spec: [PIOS_Assert] (pios_debug.h, not among the
    sources), section 7: a missing parameter block is "fatal at
    initialization" and "must stop the controller"; a failed assertion
    halts, control never reaches the next statement. *)
Definition PIOS_Assert (test : bool) : M unit :=
  if test then ret tt else halt AssertionFailed.

Definition on_controlNE (f : PIDControlNE -> PIDControlNE) : M unit :=
  modify (set_this (with_controlNE f)).

Definition AlarmsSet_GUIDANCE (sev : AlarmSeverity) : M unit :=
  modify (set_uavo (fun o =>
    mkObjects (obj_PositionState o) (obj_VelocityState o)
              (obj_VelocityDesired o) (obj_StabilizationDesired o)
              (obj_PathStatus o) sev)).

Definition PathStatusSet : M unit :=
  modify (fun s => set_uavo (fun o =>
    mkObjects (obj_PositionState o) (obj_VelocityState o)
              (obj_VelocityDesired o) (obj_StabilizationDesired o)
              (pathStatus s) (alarm_GUIDANCE o)) s).

Definition VelocityDesiredSet (v : VelocityDesiredData) : M unit :=
  modify (set_uavo (fun o =>
    mkObjects (obj_PositionState o) (obj_VelocityState o)
              v (obj_StabilizationDesired o)
              (obj_PathStatus o) (alarm_GUIDANCE o))).

Definition StabilizationDesiredSet (d : StabilizationDesiredData) : M unit :=
  modify (set_uavo (fun o =>
    mkObjects (obj_PositionState o) (obj_VelocityState o)
              (obj_VelocityDesired o) d
              (obj_PathStatus o) (alarm_GUIDANCE o))).

Definition PositionStateGet : M PositionStateData :=
  gets (fun s => obj_PositionState (uavo s)).

Definition VelocityStateGet : M VelocityStateData :=
  gets (fun s => obj_VelocityState (uavo s)).

(** ** GroundDriveController *)

(** GroundDriveController::GroundDriveController(): [groundSettings(0)],
    [mActive(false)]; [mMode] has no initialiser, so it holds whatever the
    memory held. *)
Definition GroundDriveController_new (mMode0 : Z) : GroundDriveController :=
  mkController None false mMode0 NE.init.

(** resetGlobals: [pathStatus->path_time = 0.0f]. *)
Definition resetGlobals : M unit :=
  modify (set_pathStatus (with_path_time F32.zero)).

Definition SettingsUpdated : M unit :=
  gs <- deref_groundSettings ;;
  let dT := F32.div (F32.of_Z (UpdatePeriod gs)) (F32.of_Z 1000) in
  on_controlNE (NE.UpdatePositionalParameters (HorizontalPosP gs)) ;;
  on_controlNE (NE.UpdateParameters (Kp (SpeedPI gs)) (Ki (SpeedPI gs))
                                    (Kd (SpeedPI gs)) (Beta (SpeedPI gs))
                                    dT (HorizontalVelMax gs)) ;;
  on_controlNE (NE.UpdateCommandParameters (Min (ThrustLimit gs))
                                           (Max (ThrustLimit gs))
                                           (VelocityFeedForward gs)).

Definition Activate : M unit :=
  active <- gets (fun s => mActive (this s)) ;;
  if negb active then
    modify (set_this (with_mActive true)) ;;
    SettingsUpdated ;;
    on_controlNE NE.Activate ;;
    resetGlobals ;;
    mode <- gets (fun s => pd_Mode (pathDesired s)) ;;
    modify (set_this (with_mMode mode))
  else ret tt.

Definition IsActive : M Z :=
  gets (fun s => if mActive (this s) then 1 else 0).

Definition Mode : M Z :=
  gets (fun s => mMode (this s)).

Definition ObjectiveUpdated : M unit := ret tt.

Definition Deactivate : M unit :=
  active <- gets (fun s => mActive (this s)) ;;
  if active then
    modify (set_this (with_mActive false)) ;;
    resetGlobals ;;
    on_controlNE NE.Deactivate
  else ret tt.

Definition Initialize (ptr_groundSettings : option GroundPathFollowerSettingsData)
  : M Z :=
  PIOS_Assert (match ptr_groundSettings with Some _ => true | None => false end) ;;
  modify (set_this (with_groundSettings ptr_groundSettings)) ;;
  resetGlobals ;;
  ret 0.

Section Cycle.

Variable ext : Externals.

(** [controlNE.GetNECommand(&northCommand, &eastCommand)] *)
Definition GetNECommand : M (float * float) :=
  fun s =>
    let r := NE.GetNECommand (innerStage ext) (controlNE (this s)) in
    Returned (fst r, set_this (with_controlNE (fun _ => snd r)) s).

Definition updatePathVelocity (kFF : float) : M unit :=
  positionState <- PositionStateGet ;;
  velocityState <- VelocityStateGet ;;
  on_controlNE (NE.UpdateVelocityState (North velocityState)
                                       (East velocityState)) ;;
  (* look ahead kFF seconds *)
  let cur :=
    (F32.add (North positionState) (F32.mul (North velocityState) kFF),
     F32.add (East positionState) (F32.mul (East velocityState) kFF),
     F32.add (Down positionState) (F32.mul (Down velocityState) kFF)) in
  path <- gets pathDesired ;;
  let progress := path_progress ext path cur false in
  on_controlNE (NE.ControlPositionWithPath (outerStage ext) progress) ;;
  ne <- gets (fun s => NE.GetVelocityDesired (controlNE (this s))) ;;
  let velocityDesired := mkNED (fst ne) (snd ne) F32.zero in
  (* update pathstatus *)
  modify (set_pathStatus (with_progress progress)) ;;
  VelocityDesiredSet velocityDesired.

Definition updateGroundDesiredAttitude : M Z :=
  cmd <- GetNECommand ;;
  let northCommand := fst cmd in
  let eastCommand := snd cmd in
  let courseCommand := RAD2DEG ext (atan2f ext eastCommand northCommand) in
  let speedCommand :=
    F32.sqrt (F32.add (squaref northCommand) (squaref eastCommand)) in
  gs <- deref_groundSettings ;;
  let stabDesired :=
    mkStabDesired F32.zero F32.zero courseCommand
      (boundf speedCommand (Min (ThrustLimit gs)) (Max (ThrustLimit gs)))
      (mkStabMode STABILIZATIONDESIRED_STABILIZATIONMODE_MANUAL
                  STABILIZATIONDESIRED_STABILIZATIONMODE_MANUAL
                  STABILIZATIONDESIRED_STABILIZATIONMODE_MANUAL
                  STABILIZATIONDESIRED_STABILIZATIONMODE_MANUAL) in
  StabilizationDesiredSet stabDesired ;;
  ret 1.

Definition updateAutoPilotGround : M Z :=
  gs <- deref_groundSettings ;;
  updatePathVelocity (CourseFeedForward gs) ;;
  updateGroundDesiredAttitude.

Definition UpdateAutoPilot : M unit :=
  result <- updateAutoPilotGround ;;
  (if negb (result =? 0) then
     AlarmsSet_GUIDANCE SYSTEMALARMS_ALARM_OK
   else
     modify (set_pathStatus (with_Status PATHSTATUS_STATUS_CRITICAL)) ;;
     AlarmsSet_GUIDANCE SYSTEMALARMS_ALARM_WARNING) ;;
  PathStatusSet.

(** [n] control periods in a row. *)
Fixpoint cycles (n : nat) : M unit :=
  match n with
  | O => ret tt
  | S k => UpdateAutoPilot ;; cycles k
  end.

End Cycle.

(** ** The spec's vocabulary *)

(** Section 4.1, Lookahead Predictor, in the spec's words:
    [p' = p + v*kFF], on each of the three axes. *)
Definition lookahead (p v : NED) (kFF : float) : float * float * float :=
  (F32.add (North p) (F32.mul (North v) kFF),
   F32.add (East p) (F32.mul (East v) kFF),
   F32.add (Down p) (F32.mul (Down v) kFF)).

(** Section 4.4, Command Mapper, in the spec's words: the throttle
    magnitude [sqrt(north^2 + east^2)] before the clamp. *)
Definition magnitude (north east : float) : float :=
  F32.sqrt (F32.add (F32.mul north north) (F32.mul east east)).

(** All four channels in manual mode, as the attitude step sets them. *)
Definition MANUAL_modes : StabilizationModeData :=
  mkStabMode STABILIZATIONDESIRED_STABILIZATIONMODE_MANUAL
             STABILIZATIONDESIRED_STABILIZATIONMODE_MANUAL
             STABILIZATIONDESIRED_STABILIZATIONMODE_MANUAL
             STABILIZATIONDESIRED_STABILIZATIONMODE_MANUAL.

(** Section 7: the "safe zero/neutral command". *)
Definition zero_command (d : StabilizationDesiredData) : Prop :=
  Yaw d = F32.zero /\ Thrust d = F32.zero.

(** Section 4.2: a degenerate path, "e.g., zero-length". *)
Definition degenerate (path : PathDesiredData) : Prop :=
  pd_Start path = pd_End path.

(** What SettingsUpdated does to [controlNE]: the three parameter updates
    of the cascade, in the order of the source. *)
Definition settings_pushed (gs : GroundPathFollowerSettingsData)
           (c : PIDControlNE) : PIDControlNE :=
  NE.UpdateCommandParameters
    (Min (ThrustLimit gs)) (Max (ThrustLimit gs)) (VelocityFeedForward gs)
    (NE.UpdateParameters
       (Kp (SpeedPI gs)) (Ki (SpeedPI gs)) (Kd (SpeedPI gs))
       (Beta (SpeedPI gs))
       (F32.div (F32.of_Z (UpdatePeriod gs)) (F32.of_Z 1000))
       (HorizontalVelMax gs)
       (NE.UpdatePositionalParameters (HorizontalPosP gs) c)).

(** The state a call leaves behind, when it returns. *)
Definition exec {A} (m : M A) (s : Machine) : option Machine :=
  match m s with
  | Returned (_, s') => Some s'
  | Halted _ => None
  end.

(** ** Call sequences

    What the path follower module and the rest of the system do to the
    controller between and around its calls: the member functions, and the
    writes of other modules to the structures and objects it reads. *)

Definition set_pathDesired (p : PathDesiredData) (s : Machine) : Machine :=
  mkMachine (this s) p (pathStatus s) (uavo s).

(** A write to the settings block: seen through [groundSettings] when the
    pointer is set, not at all while it is null. *)
Definition write_settings (gs : GroundPathFollowerSettingsData)
           (c : GroundDriveController) : GroundDriveController :=
  match groundSettings c with
  | Some _ => with_groundSettings (Some gs) c
  | None => c
  end.

Definition set_kinematics (p : PositionStateData) (v : VelocityStateData)
           (o : UAVObjects) : UAVObjects :=
  mkObjects p v (obj_VelocityDesired o) (obj_StabilizationDesired o)
            (obj_PathStatus o) (alarm_GUIDANCE o).

Inductive call : Type :=
| CallInitialize (gs : GroundPathFollowerSettingsData)
| CallActivate
| CallDeactivate
| CallSettingsUpdated
| CallObjectiveUpdated
| CallUpdateAutoPilot
| CallIsActive
| CallMode
| EnvPathDesired (p : PathDesiredData)
| EnvSettings (gs : GroundPathFollowerSettingsData)
| EnvKinematics (p : PositionStateData) (v : VelocityStateData).

Definition step_call (ext : Externals) (c : call) : M unit :=
  match c with
  | CallInitialize gs => Initialize (Some gs) ;; ret tt
  | CallActivate => Activate
  | CallDeactivate => Deactivate
  | CallSettingsUpdated => SettingsUpdated
  | CallObjectiveUpdated => ObjectiveUpdated
  | CallUpdateAutoPilot => UpdateAutoPilot ext
  | CallIsActive => IsActive ;; ret tt
  | CallMode => Mode ;; ret tt
  | EnvPathDesired p => modify (set_pathDesired p)
  | EnvSettings gs => modify (set_this (write_settings gs))
  | EnvKinematics p v => modify (set_uavo (set_kinematics p v))
  end.

Fixpoint run_calls (ext : Externals) (l : list call) : M unit :=
  match l with
  | nil => ret tt
  | cons c l' => step_call ext c ;; run_calls ext l'
  end.

(** The lifecycle as a two-state machine: the active flag, the mode
    recorded at the last activation and the mode of the current path. *)
Record lifecycle : Type := mkLifecycle {
  lc_active : bool;
  lc_mode : Z;
  lc_pathMode : Z
}.

Definition lifecycle_of (s : Machine) : lifecycle :=
  mkLifecycle (mActive (this s)) (mMode (this s)) (pd_Mode (pathDesired s)).

Definition lifecycle_step (c : call) (l : lifecycle) : lifecycle :=
  match c with
  | CallActivate =>
      if lc_active l then l
      else mkLifecycle true (lc_pathMode l) (lc_pathMode l)
  | CallDeactivate => mkLifecycle false (lc_mode l) (lc_pathMode l)
  | EnvPathDesired p => mkLifecycle (lc_active l) (lc_mode l) (pd_Mode p)
  | _ => l
  end.

Fixpoint lifecycle_run (cs : list call) (l : lifecycle) : lifecycle :=
  match cs with
  | nil => l
  | cons c cs' => lifecycle_run cs' (lifecycle_step c l)
  end.

(** ** Classes of binary32 values *)

Definition is_nan (x : float) : bool :=
  match x with S754_nan => true | _ => false end.

(** Zero or finite: neither a NaN nor an infinity. *)
Definition is_finite (x : float) : bool :=
  match x with
  | S754_zero _ | S754_finite _ _ _ => true
  | _ => false
  end.

Definition is_zero (x : float) : bool :=
  match x with S754_zero _ => true | _ => false end.

(** C's [==] on the three coordinates of a point. *)
Definition point_eqb (a b : float * float * float) : bool :=
  SFeqb (fst (fst a)) (fst (fst b))
  && SFeqb (snd (fst a)) (snd (fst b))
  && SFeqb (snd a) (snd b).

Definition point_of (p : NED) : float * float * float :=
  (North p, East p, Down p).

(** ** A concrete configuration

    Stand-ins for the externals and one settings block, to run the model
    on.  No theorem below depends on the choices made here. *)

Module Sample.

Definition M_PI_F : float := S754_finite false 13176795 (-22).

(** [atan2f] on the axes only; not a number elsewhere. *)
Definition atan2f (y x : float) : float :=
  if SFeqb y F32.zero then
    if F32.leb F32.zero x then F32.zero else M_PI_F
  else if SFeqb x F32.zero then
    if F32.ltb F32.zero y then F32.div M_PI_F (F32.of_Z 2)
    else F32.div M_PI_F (F32.of_Z (-2))
  else S754_nan.

Definition RAD2DEG (rad : float) : float :=
  F32.mul rad (F32.div (F32.of_Z 180) M_PI_F).

(** A path engine that always steers to the end point. *)
Definition path_progress (path : PathDesiredData)
           (cur : float * float * float) (mode3D : bool) : path_status :=
  let '(cn, ce, cd) := cur in
  let dn := F32.sub (North (pd_End path)) cn in
  let de := F32.sub (East (pd_End path)) ce in
  let dd := F32.sub (Down (pd_End path)) cd in
  mkProgress (magnitude dn de) F32.zero
             (F32.sub (North (pd_End path)) (North (pd_Start path)),
              F32.sub (East (pd_End path)) (East (pd_Start path)),
              F32.sub (Down (pd_End path)) (Down (pd_Start path)))
             (dn, de, dd).

(** Proportional stages without limits. *)
Definition outerStage (c : PIDControlNE) (g : path_status) : float * float :=
  let '(cn, ce, _) := ps_correction_vector g in
  (F32.mul (ne_positionGain c) cn, F32.mul (ne_positionGain c) ce).

Definition innerStage (c : PIDControlNE)
  : (float * float) * (float * float) :=
  let '(dn, de) := ne_velocityDesired c in
  let '(vn, ve) := ne_velocityState c in
  ((F32.mul (ne_Kp c) (F32.sub dn vn), F32.mul (ne_Kp c) (F32.sub de ve)),
   ne_integrator c).

Definition ext : Externals :=
  mkExternals atan2f RAD2DEG path_progress outerStage innerStage.

Definition settings : GroundPathFollowerSettingsData :=
  mkSettings (F32.of_Z 1)
             (mkSpeedPI (F32.of_Z 1) F32.zero F32.zero F32.zero)
             100
             (F32.of_Z 10)
             (mkThrustLimit F32.zero (F32.of_Z 1))
             F32.zero
             (F32.of_Z 1).

Definition origin : NED := mkNED F32.zero F32.zero F32.zero.

(** A path of length zero at the origin. *)
Definition path : PathDesiredData :=
  mkPathDesired origin origin F32.zero F32.zero 0.

Definition stale_status : PathStatusData :=
  mkPathStatus (F32.of_Z 7) PATHSTATUS_STATUS_INPROGRESS
               F32.zero F32.zero F32.zero F32.zero F32.zero
               F32.zero F32.zero F32.zero.

Definition objects : UAVObjects :=
  mkObjects (mkNED (F32.of_Z (-3)) F32.zero F32.zero) origin origin
            (mkStabDesired F32.zero F32.zero F32.zero F32.zero
               (mkStabMode STABILIZATIONDESIRED_STABILIZATIONMODE_RATE
                           STABILIZATIONDESIRED_STABILIZATIONMODE_RATE
                           STABILIZATIONDESIRED_STABILIZATIONMODE_RATE
                           STABILIZATIONDESIRED_STABILIZATIONMODE_RATE))
            stale_status SYSTEMALARMS_ALARM_UNINITIALISED.

(** Just constructed: three metres south of the path, at rest. *)
Definition constructed : Machine :=
  mkMachine (GroundDriveController_new 0) path stale_status objects.

(** After [Initialize(&settings)]. *)
Definition initialized : Machine :=
  match exec (Initialize (Some settings)) constructed with
  | Some s => s
  | None => constructed
  end.

(** After [Initialize(&settings); Activate()]. *)
Definition active : Machine :=
  match exec Activate initialized with
  | Some s => s
  | None => initialized
  end.


(** A second settings block: other gains and period, the same thrust
    limits and course feed-forward. *)
Definition settings_retuned : GroundPathFollowerSettingsData :=
  mkSettings (F32.of_Z 2)
             (mkSpeedPI (F32.of_Z 3) (F32.of_Z 1) F32.zero F32.zero)
             20
             (F32.of_Z 5)
             (mkThrustLimit F32.zero (F32.of_Z 1))
             (F32.of_Z 1)
             (F32.of_Z 1).

(** Another path, of mode 7. *)
Definition path_north : PathDesiredData :=
  mkPathDesired origin (mkNED (F32.of_Z 10) F32.zero F32.zero)
                F32.zero F32.zero 7.

(** A day in the life of the controller. *)
Definition session : list call :=
  (CallActivate :: CallUpdateAutoPilot
   :: EnvPathDesired path_north :: CallActivate :: CallUpdateAutoPilot
   :: EnvSettings settings_retuned :: CallSettingsUpdated
   :: EnvKinematics (mkNED (F32.of_Z 1) (F32.of_Z 2) F32.zero)
                    (mkNED (F32.of_Z 1) F32.zero F32.zero)
   :: CallUpdateAutoPilot :: CallIsActive :: CallMode
   :: CallDeactivate :: CallInitialize settings :: CallActivate
   :: CallUpdateAutoPilot :: nil)%list.



End Sample.

(** * Properties *)

(** ** Order of binary32 values *)






(** ** Running the monad *)

Ltac run :=
  unfold UpdateAutoPilot, updateAutoPilotGround,
         updateGroundDesiredAttitude, updatePathVelocity, GetNECommand,
         SettingsUpdated, resetGlobals, on_controlNE, AlarmsSet_GUIDANCE,
         PathStatusSet, VelocityDesiredSet, StabilizationDesiredSet,
         PositionStateGet, VelocityStateGet, PIOS_Assert,
         deref_groundSettings, bind, ret, halt, gets, modify;
  cbn.

Lemma deref_groundSettings_Some (s : Machine) gs :
  groundSettings (this s) = Some gs ->
  deref_groundSettings s = Returned (gs, s).
Proof. intros H. unfold deref_groundSettings. now rewrite H. Qed.

Lemma bind_Returned {A B} (m : M A) (k : A -> M B) s a s' :
  m s = Returned (a, s') -> bind m k s = k a s'.
Proof. intros H. unfold bind. now rewrite H. Qed.

Lemma bind_Halted {A B} (m : M A) (k : A -> M B) s f :
  m s = Halted f -> bind m k s = Halted f.
Proof. intros H. unfold bind. now rewrite H. Qed.

Lemma SettingsUpdated_Returned (s : Machine) gs :
  groundSettings (this s) = Some gs ->
  SettingsUpdated s
  = Returned (tt, set_this (with_controlNE (settings_pushed gs)) s).
Proof.
  intros H. unfold SettingsUpdated.
  rewrite (bind_Returned _ _ _ _ _ (deref_groundSettings_Some s gs H)).
  reflexivity.
Qed.

Lemma SettingsUpdated_null (s : Machine) :
  groundSettings (this s) = None ->
  SettingsUpdated s = Halted NullDereference.
Proof.
  intros H. unfold SettingsUpdated, bind, deref_groundSettings.
  now rewrite H.
Qed.

(** One cycle on an initialised controller, step by step: the path
    velocity step returns and keeps the settings pointer, the attitude step
    returns 1, and so does their sequence. *)
Lemma updatePathVelocity_total (ext : Externals) (kFF : float) (s : Machine) :
  exists s1,
    updatePathVelocity ext kFF s = Returned (tt, s1) /\
    groundSettings (this s1) = groundSettings (this s) /\
    mActive (this s1) = mActive (this s) /\
    mMode (this s1) = mMode (this s) /\
    path_time (pathStatus s1) = path_time (pathStatus s) /\
    Status (pathStatus s1) = Status (pathStatus s) /\
    pathDesired s1 = pathDesired s.
Proof. eexists. split; [run; reflexivity|]. cbn. auto 7. Qed.

(** Activate on an initialised, inactive controller: the state it
    returns. *)
Lemma Activate_inactive_Returned (s : Machine) gs :
  groundSettings (this s) = Some gs ->
  mActive (this s) = false ->
  exists s',
    Activate s = Returned (tt, s') /\
    this s'
    = mkController (Some gs) true (pd_Mode (pathDesired s))
        (NE.Activate (settings_pushed gs (controlNE (this s)))) /\
    pathStatus s' = with_path_time F32.zero (pathStatus s) /\
    pathDesired s' = pathDesired s /\
    uavo s' = uavo s.
Proof.
  intros Hgs Hin.
  unfold Activate.
  rewrite (bind_Returned _ _ s (mActive (this s)) s eq_refl), Hin.
  cbn [negb].
  erewrite bind_Returned by reflexivity.
  erewrite bind_Returned
    by (apply SettingsUpdated_Returned with (gs := gs); exact Hgs).
  eexists. split; [reflexivity|]. cbn.
  unfold with_mMode, with_controlNE, with_mActive. cbn.
  rewrite Hgs. auto.
Qed.

Lemma Activate_active_Returned (s : Machine) :
  mActive (this s) = true -> Activate s = Returned (tt, s).
Proof.
  intros Ht. unfold Activate.
  rewrite (bind_Returned _ _ s (mActive (this s)) s eq_refl), Ht.
  reflexivity.
Qed.

Lemma Activate_null_Halted (s : Machine) :
  groundSettings (this s) = None ->
  mActive (this s) = false ->
  Activate s = Halted NullDereference.
Proof.
  intros Hgs Hin. unfold Activate.
  rewrite (bind_Returned _ _ s (mActive (this s)) s eq_refl), Hin.
  cbn [negb].
  erewrite bind_Returned by reflexivity.
  apply bind_Halted, SettingsUpdated_null. exact Hgs.
Qed.

(** ** Lifecycle *)

(** C3: Initialize has one return statement, [return 0], behind the
    assertion on its argument; the -1 its header comment promises for a
    failed initialisation is never produced.  With a null settings pointer
    the assertion fails and the call halts without a return code, so that
    Initialize(NULL) followed by Activate and IsActive never answers: the
    controller does not become active.  With a settings pointer Initialize
    returns 0, has stored the pointer and zeroed the path time without
    touching the active flag, and Activate after it makes IsActive
    answer 1. *)
Theorem Initialize_guard (s : Machine) :
  Initialize None s = Halted AssertionFailed /\
  (forall ptr,
      Initialize ptr s = Halted AssertionFailed \/
      exists s', Initialize ptr s = Returned (0, s')) /\
  (Initialize None ;; Activate ;; IsActive) s = Halted AssertionFailed /\
  (forall gs, exists s',
      Initialize (Some gs) s = Returned (0, s') /\
      groundSettings (this s') = Some gs /\
      path_time (pathStatus s') = F32.zero /\
      mActive (this s') = mActive (this s) /\
      exists s'',
        (Initialize (Some gs) ;; Activate ;; IsActive) s = Returned (1, s'') /\
        mActive (this s'') = true).
Proof.
  assert (Hinit : forall gs, exists s',
             Initialize (Some gs) s = Returned (0, s') /\
             groundSettings (this s') = Some gs /\
             path_time (pathStatus s') = F32.zero /\
             mActive (this s') = mActive (this s)).
  { intros gs. eexists. split; [reflexivity|]. cbn. auto. }
  split; [reflexivity|]. split; [|split].
  - intros [gs|].
    + right. destruct (Hinit gs) as (s' & Hrun & _). exists s'. exact Hrun.
    + left. reflexivity.
  - apply bind_Halted. reflexivity.
  - intros gs. destruct (Hinit gs) as (s' & Hrun & Hgs & Hpt & Hact).
    exists s'. split; [exact Hrun|]. split; [exact Hgs|].
    split; [exact Hpt|]. split; [exact Hact|].
    rewrite (bind_Returned _ _ _ _ _ Hrun).
    destruct (mActive (this s')) eqn:Hs'.
    + exists s'.
      rewrite (bind_Returned _ _ _ _ _ (Activate_active_Returned s' Hs')).
      unfold IsActive, gets. rewrite Hs'. split; reflexivity.
    + destruct (Activate_inactive_Returned s' gs Hgs Hs')
        as (s'' & Hrun' & Hthis & _).
      exists s''. rewrite (bind_Returned _ _ _ _ _ Hrun').
      unfold IsActive, gets. rewrite Hthis. split; reflexivity.
Qed.

(** C3 at the failing input: on a freshly constructed controller
    Initialize(NULL) halts in the assertion; it does not return the -1 of
    its header comment, nor any other non-zero code. *)
Lemma Initialize_null_returns_no_code :
  Initialize None Sample.constructed = Halted AssertionFailed /\
  ~ (exists r s', Initialize None Sample.constructed = Returned (r, s')
                  /\ r <> 0).
Proof.
  split; [reflexivity|].
  intros (r & s' & H & _). discriminate H.
Qed.

(** C4: Activate on an initialised, inactive controller returns, and right
    after it both components of the cascade's integrator are zero, the
    path time is zero and the controller is active - whatever the
    integrator and the path time were before. *)
Theorem Activate_reset_law (s : Machine) (gs : GroundPathFollowerSettingsData) :
  groundSettings (this s) = Some gs ->
  mActive (this s) = false ->
  exists s',
    Activate s = Returned (tt, s') /\
    ne_integrator (controlNE (this s')) = (F32.zero, F32.zero) /\
    ne_lastCommand (controlNE (this s')) = (F32.zero, F32.zero) /\
    path_time (pathStatus s') = F32.zero /\
    mActive (this s') = true /\
    mMode (this s') = pd_Mode (pathDesired s).
Proof.
  intros Hgs Hin.
  destruct (Activate_inactive_Returned s gs Hgs Hin)
    as (s' & Hrun & Hthis & Hps & _).
  exists s'. split; [exact Hrun|].
  rewrite Hthis, Hps. cbn. auto 6.
Qed.

Lemma Activate_reset_law_witness :
  exists s',
    Activate Sample.initialized = Returned (tt, s') /\
    ne_integrator (controlNE (this s')) = (F32.zero, F32.zero) /\
    ne_lastCommand (controlNE (this s')) = (F32.zero, F32.zero) /\
    path_time (pathStatus s') = F32.zero /\
    mActive (this s') = true /\
    mMode (this s') = pd_Mode (pathDesired Sample.initialized).
Proof.
  apply (Activate_reset_law Sample.initialized Sample.settings);
    reflexivity.
Defined.

(** C5: Activate on an active controller and Deactivate on an inactive one
    return with the whole machine state untouched; hence two Activate calls
    in a row do exactly what one does. *)
Theorem Activate_Deactivate_idempotent (s : Machine) :
  (mActive (this s) = true -> Activate s = Returned (tt, s)) /\
  (mActive (this s) = false -> Deactivate s = Returned (tt, s)) /\
  (Activate ;; Activate) s = Activate s.
Proof.
  assert (HA : forall t, mActive (this t) = true ->
                         Activate t = Returned (tt, t)).
  { intros t Ht. unfold Activate.
    rewrite (bind_Returned _ _ t (mActive (this t)) t eq_refl), Ht.
    reflexivity. }
  split; [apply HA|]. split.
  - intros Hs. unfold Deactivate.
    rewrite (bind_Returned _ _ s (mActive (this s)) s eq_refl), Hs.
    reflexivity.
  - destruct (mActive (this s)) eqn:Hs.
    + rewrite (bind_Returned _ _ s tt s (HA s Hs)). reflexivity.
    + destruct (groundSettings (this s)) as [gs|] eqn:Hgs.
      * destruct (Activate_inactive_Returned s gs Hgs Hs)
          as (s' & Hrun & Hthis & _).
        rewrite (bind_Returned _ _ s tt s' Hrun), Hrun.
        apply HA. rewrite Hthis. reflexivity.
      * rewrite (bind_Halted _ _ s _ (Activate_null_Halted s Hgs Hs)).
        symmetry. apply Activate_null_Halted; assumption.
Qed.

Lemma Activate_Deactivate_idempotent_witness :
  Activate Sample.active = Returned (tt, Sample.active) /\
  Deactivate Sample.initialized = Returned (tt, Sample.initialized).
Proof.
  split.
  - exact (proj1 (Activate_Deactivate_idempotent Sample.active) eq_refl).
  - exact (proj1 (proj2 (Activate_Deactivate_idempotent Sample.initialized))
                 eq_refl).
Defined.

(** C8: SettingsUpdated on an initialised controller returns; it has run
    the three parameter updates of the cascade with the position gain, the
    four velocity-loop gains, the period [UpdatePeriod / 1000] in seconds,
    the velocity limit, the thrust limits and the feed-forward of the
    settings, and changed nothing else: integrator, last command, armed
    flag, active flag, recorded mode, path time and all, and the objects
    are as before. *)
Theorem SettingsUpdated_frame (s : Machine) (gs : GroundPathFollowerSettingsData) :
  groundSettings (this s) = Some gs ->
  exists s',
    SettingsUpdated s = Returned (tt, s') /\
    controlNE (this s') = settings_pushed gs (controlNE (this s)) /\
    ne_dT (controlNE (this s'))
      = F32.div (F32.of_Z (UpdatePeriod gs)) (F32.of_Z 1000) /\
    ne_positionGain (controlNE (this s')) = HorizontalPosP gs /\
    (ne_Kp (controlNE (this s')), ne_Ki (controlNE (this s')),
     ne_Kd (controlNE (this s')), ne_Beta (controlNE (this s')))
      = (Kp (SpeedPI gs), Ki (SpeedPI gs), Kd (SpeedPI gs),
         Beta (SpeedPI gs)) /\
    ne_velMax (controlNE (this s')) = HorizontalVelMax gs /\
    (ne_cmdMin (controlNE (this s')), ne_cmdMax (controlNE (this s')))
      = (Min (ThrustLimit gs), Max (ThrustLimit gs)) /\
    ne_feedForward (controlNE (this s')) = VelocityFeedForward gs /\
    ne_integrator (controlNE (this s'))
      = ne_integrator (controlNE (this s)) /\
    ne_lastCommand (controlNE (this s'))
      = ne_lastCommand (controlNE (this s)) /\
    ne_armed (controlNE (this s')) = ne_armed (controlNE (this s)) /\
    mActive (this s') = mActive (this s) /\
    mMode (this s') = mMode (this s) /\
    groundSettings (this s') = groundSettings (this s) /\
    pathStatus s' = pathStatus s /\
    pathDesired s' = pathDesired s /\
    uavo s' = uavo s.
Proof.
  intros Hgs. eexists. split.
  - apply SettingsUpdated_Returned. exact Hgs.
  - cbn. repeat split.
Qed.

Lemma SettingsUpdated_frame_witness :
  exists s',
    SettingsUpdated Sample.active = Returned (tt, s') /\
    ne_dT (controlNE (this s'))
      = F32.div (F32.of_Z 100) (F32.of_Z 1000) /\
    ne_integrator (controlNE (this s'))
      = ne_integrator (controlNE (this Sample.active)) /\
    mActive (this s') = true /\
    pathStatus s' = pathStatus Sample.active.
Proof.
  destruct (SettingsUpdated_frame Sample.active Sample.settings eq_refl)
    as (s' & Hrun & _ & HdT & _ & _ & _ & _ & _ & Hint & _ & _ & Hact & _
        & _ & Hps & _).
  exists s'. repeat split; assumption.
Defined.

(** ** The control cycle *)

Lemma updateGroundDesiredAttitude_Returned (ext : Externals) (s : Machine) gs :
  groundSettings (this s) = Some gs ->
  exists s2,
    updateGroundDesiredAttitude ext s = Returned (1, s2) /\
    obj_StabilizationDesired (uavo s2)
    = (let cmd := fst (NE.GetNECommand (innerStage ext) (controlNE (this s))) in
       mkStabDesired F32.zero F32.zero
         (RAD2DEG ext (atan2f ext (snd cmd) (fst cmd)))
         (boundf (magnitude (fst cmd) (snd cmd))
                 (Min (ThrustLimit gs)) (Max (ThrustLimit gs)))
         MANUAL_modes) /\
    groundSettings (this s2) = groundSettings (this s) /\
    mActive (this s2) = mActive (this s) /\
    pathStatus s2 = pathStatus s /\
    obj_VelocityDesired (uavo s2) = obj_VelocityDesired (uavo s) /\
    pathDesired s2 = pathDesired s.
Proof.
  intros Hgs. run. rewrite Hgs. cbn.
  eexists. split; [reflexivity|]. cbn. auto 7.
Qed.

Lemma UpdateAutoPilot_Returned (ext : Externals) (s : Machine) gs :
  groundSettings (this s) = Some gs ->
  exists s1 s2 s',
    updatePathVelocity ext (CourseFeedForward gs) s = Returned (tt, s1) /\
    updateGroundDesiredAttitude ext s1 = Returned (1, s2) /\
    updateAutoPilotGround ext s = Returned (1, s2) /\
    UpdateAutoPilot ext s = Returned (tt, s') /\
    this s' = this s2 /\
    pathDesired s' = pathDesired s /\
    pathStatus s' = pathStatus s1 /\
    obj_PathStatus (uavo s') = pathStatus s1 /\
    obj_StabilizationDesired (uavo s') = obj_StabilizationDesired (uavo s2) /\
    obj_VelocityDesired (uavo s') = obj_VelocityDesired (uavo s1) /\
    alarm_GUIDANCE (uavo s') = SYSTEMALARMS_ALARM_OK.
Proof.
  intros Hgs.
  destruct (updatePathVelocity_total ext (CourseFeedForward gs) s)
    as (s1 & H1 & Hgs1 & _ & _ & _ & _ & Hpd1).
  rewrite Hgs in Hgs1.
  destruct (updateGroundDesiredAttitude_Returned ext s1 gs Hgs1)
    as (s2 & H2 & _ & _ & _ & Hps2 & Hvd2 & Hpd2).
  assert (Hg : updateAutoPilotGround ext s = Returned (1, s2)).
  { unfold updateAutoPilotGround.
    rewrite (bind_Returned _ _ _ _ _ (deref_groundSettings_Some s gs Hgs)).
    rewrite (bind_Returned _ _ _ _ _ H1). exact H2. }
  exists s1, s2. eexists.
  split; [exact H1|]. split; [exact H2|]. split; [exact Hg|].
  split.
  - unfold UpdateAutoPilot.
    rewrite (bind_Returned _ _ _ _ _ Hg). reflexivity.
  - cbn. rewrite Hps2, Hvd2, Hpd2, Hpd1. repeat split.
Qed.

(** C7: the path velocity step always returns, and the point it hands to
    the path engine is the lookahead [p + v*kFF] of the position and
    velocity objects, on all three axes: the progress written to the path
    status and given to the outer stage is the engine's answer at that
    point.  The point depends on nothing but [p], [v] and [kFF]. *)
Theorem lookahead_is_query_point (ext : Externals) (kFF : float) (s : Machine) :
  let p := obj_PositionState (uavo s) in
  let v := obj_VelocityState (uavo s) in
  let progress := path_progress ext (pathDesired s) (lookahead p v kFF) false in
  lookahead p v kFF
  = (F32.add (North p) (F32.mul (North v) kFF),
     F32.add (East p) (F32.mul (East v) kFF),
     F32.add (Down p) (F32.mul (Down v) kFF)) /\
  exists s',
    updatePathVelocity ext kFF s = Returned (tt, s') /\
    pathStatus s' = with_progress progress (pathStatus s) /\
    controlNE (this s')
    = NE.ControlPositionWithPath (outerStage ext) progress
        (NE.UpdateVelocityState (North v) (East v) (controlNE (this s))).
Proof.
  cbn zeta. split; [reflexivity|].
  eexists. split; [run; reflexivity|]. cbn. auto.
Qed.

(** C10: the velocity the path velocity step publishes has Down = 0.0f, and
    so has the one a whole cycle leaves in the VelocityDesired object. *)
Theorem velocityDesired_Down_is_zero (ext : Externals) (s : Machine) :
  (forall kFF, exists s',
      updatePathVelocity ext kFF s = Returned (tt, s') /\
      Down (obj_VelocityDesired (uavo s')) = F32.zero) /\
  (forall gs, groundSettings (this s) = Some gs ->
      exists s',
        UpdateAutoPilot ext s = Returned (tt, s') /\
        Down (obj_VelocityDesired (uavo s')) = F32.zero).
Proof.
  assert (HV : forall kFF s1,
             updatePathVelocity ext kFF s = Returned (tt, s1) ->
             Down (obj_VelocityDesired (uavo s1)) = F32.zero).
  { intros kFF s1 H. revert H. run. intros H. injection H as <-.
    reflexivity. }
  split.
  - intros kFF.
    destruct (updatePathVelocity_total ext kFF s) as (s1 & H1 & _).
    exists s1. split; [exact H1|]. exact (HV kFF s1 H1).
  - intros gs Hgs.
    destruct (UpdateAutoPilot_Returned ext s gs Hgs)
      as (s1 & s2 & s' & H1 & _ & _ & Hrun & _ & _ & _ & _ & _ & Hvd & _).
    exists s'. split; [exact Hrun|].
    rewrite Hvd. exact (HV _ s1 H1).
Qed.

Lemma velocityDesired_Down_is_zero_witness :
  exists s',
    UpdateAutoPilot Sample.ext Sample.active = Returned (tt, s') /\
    Down (obj_VelocityDesired (uavo s')) = F32.zero.
Proof.
  exact (proj2 (velocityDesired_Down_is_zero Sample.ext Sample.active)
               Sample.settings eq_refl).
Defined.

(** C9: on an initialised controller the attitude step returns 1, so the
    ground autopilot step returns 1 and UpdateAutoPilot sets the guidance
    alarm to OK and leaves the path status' Status as it was: the branch
    that sets CRITICAL and WARNING is never taken.  Whenever either step
    returns at all, it returns 1. *)
Theorem ground_cycle_always_ok (ext : Externals) (s : Machine) :
  (forall r s2, updateGroundDesiredAttitude ext s = Returned (r, s2) -> r = 1) /\
  (forall r s2, updateAutoPilotGround ext s = Returned (r, s2) -> r = 1) /\
  (forall s', UpdateAutoPilot ext s = Returned (tt, s') ->
      alarm_GUIDANCE (uavo s') = SYSTEMALARMS_ALARM_OK /\
      Status (pathStatus s') = Status (pathStatus s)) /\
  (forall gs, groundSettings (this s) = Some gs ->
      (exists s2, updateGroundDesiredAttitude ext s = Returned (1, s2)) /\
      (exists s2, updateAutoPilotGround ext s = Returned (1, s2)) /\
      (exists s', UpdateAutoPilot ext s = Returned (tt, s') /\
         alarm_GUIDANCE (uavo s') = SYSTEMALARMS_ALARM_OK /\
         alarm_GUIDANCE (uavo s') <> SYSTEMALARMS_ALARM_WARNING /\
         Status (pathStatus s') = Status (pathStatus s) /\
         Status (obj_PathStatus (uavo s')) = Status (pathStatus s))).
Proof.
  assert (Htot : forall gs, groundSettings (this s) = Some gs ->
      (exists s2, updateGroundDesiredAttitude ext s = Returned (1, s2)) /\
      (exists s2, updateAutoPilotGround ext s = Returned (1, s2)) /\
      (exists s', UpdateAutoPilot ext s = Returned (tt, s') /\
         alarm_GUIDANCE (uavo s') = SYSTEMALARMS_ALARM_OK /\
         alarm_GUIDANCE (uavo s') <> SYSTEMALARMS_ALARM_WARNING /\
         Status (pathStatus s') = Status (pathStatus s) /\
         Status (obj_PathStatus (uavo s')) = Status (pathStatus s))).
  { intros gs Hgs.
    destruct (updateGroundDesiredAttitude_Returned ext s gs Hgs)
      as (s2 & H2 & _).
    destruct (UpdateAutoPilot_Returned ext s gs Hgs)
      as (s1 & s3 & s' & H1 & _ & Hg & Hrun & _ & _ & Hps & Hobj & _ & _
          & Hal).
    destruct (updatePathVelocity_total ext (CourseFeedForward gs) s)
      as (s1' & H1' & _ & _ & _ & _ & Hst & _).
    rewrite H1 in H1'. injection H1' as <-.
    split; [exists s2; exact H2|]. split; [exists s3; exact Hg|].
    exists s'. split; [exact Hrun|].
    rewrite Hal, Hps, Hobj, Hst. repeat split. discriminate. }
  destruct (groundSettings (this s)) as [gs|] eqn:Hgs.
  - destruct (Htot gs eq_refl)
      as ((s2 & H2) & (s3 & H3) & (s' & Hrun & Hal & _ & Hst & _)).
    repeat split.
    + intros r t H. rewrite H2 in H. now injection H as <- _.
    + intros r t H. rewrite H3 in H. now injection H as <- _.
    + rewrite Hrun in H. injection H as <-. exact Hal.
    + rewrite Hrun in H. injection H as <-. exact Hst.
    + exact (proj1 (Htot gs0 H)).
    + exact (proj1 (proj2 (Htot gs0 H))).
    + exact (proj2 (proj2 (Htot gs0 H))).
  - repeat split; try discriminate.
    + intros r t. run. rewrite Hgs. discriminate.
    + intros r t. run. rewrite Hgs. discriminate.
    + revert H. run. rewrite Hgs. discriminate.
    + revert H. run. rewrite Hgs. discriminate.
Qed.

Lemma ground_cycle_always_ok_witness :
  (exists s2,
      updateGroundDesiredAttitude Sample.ext Sample.active = Returned (1, s2)) /\
  (exists s2,
      updateAutoPilotGround Sample.ext Sample.active = Returned (1, s2)) /\
  (exists s',
      UpdateAutoPilot Sample.ext Sample.active = Returned (tt, s') /\
      alarm_GUIDANCE (uavo s') = SYSTEMALARMS_ALARM_OK /\
      alarm_GUIDANCE (uavo s') <> SYSTEMALARMS_ALARM_WARNING /\
      Status (pathStatus s') = Status (pathStatus Sample.active) /\
      Status (obj_PathStatus (uavo s')) = Status (pathStatus Sample.active)).
Proof.
  exact (proj2 (proj2 (proj2
           (ground_cycle_always_ok Sample.ext Sample.active)))
           Sample.settings eq_refl).
Defined.




(** ** Path time and faults *)

Lemma UpdateAutoPilot_keeps (ext : Externals) (s : Machine) gs :
  groundSettings (this s) = Some gs ->
  exists s',
    UpdateAutoPilot ext s = Returned (tt, s') /\
    groundSettings (this s') = Some gs /\
    mActive (this s') = mActive (this s) /\
    path_time (pathStatus s') = path_time (pathStatus s) /\
    path_time (obj_PathStatus (uavo s')) = path_time (pathStatus s).
Proof.
  intros Hgs.
  destruct (UpdateAutoPilot_Returned ext s gs Hgs)
    as (s1 & s2 & s' & H1 & H2 & _ & Hrun & Hthis & _ & Hps & Hobj & _).
  destruct (updatePathVelocity_total ext (CourseFeedForward gs) s)
    as (s1' & H1' & Hgs1 & Hact1 & _ & Hpt & _).
  rewrite H1 in H1'. injection H1' as <-.
  rewrite Hgs in Hgs1.
  destruct (updateGroundDesiredAttitude_Returned ext s1 gs Hgs1)
    as (s2' & H2' & _ & Hgs2 & Hact2 & _).
  rewrite H2 in H2'. injection H2' as <-.
  exists s'. split; [exact Hrun|].
  rewrite Hthis, Hps, Hobj, Hgs2, Hact2, Hgs1, Hact1, Hpt. auto.
Qed.

Lemma cycles_keep (ext : Externals) (n : nat) :
  forall (s : Machine) gs,
    groundSettings (this s) = Some gs ->
    exists s',
      cycles ext n s = Returned (tt, s') /\
      groundSettings (this s') = Some gs /\
      mActive (this s') = mActive (this s) /\
      path_time (pathStatus s') = path_time (pathStatus s).
Proof.
  induction n as [|n IH]; intros s gs Hgs.
  - exists s. cbn. auto.
  - destruct (UpdateAutoPilot_keeps ext s gs Hgs)
      as (s1 & Hrun & Hgs1 & Hact1 & Hpt1 & _).
    destruct (IH s1 gs Hgs1) as (s' & Hn & Hgs' & Hact' & Hpt').
    exists s'. cbn [cycles].
    rewrite (bind_Returned _ _ _ _ _ Hrun).
    split; [exact Hn|].
    rewrite Hact', Hpt', Hact1, Hpt1. auto.
Qed.

(** C2 (as the code has it): a cycle of an initialised controller returns
    and leaves the path time exactly as it found it, in the structure and
    in the published object; so does any number of cycles, and after
    Activate and [n] cycles the path time is still the zero that Activate
    wrote.  The path time never decreases, because it never moves. *)
Theorem path_time_is_held (ext : Externals) (s : Machine)
        (gs : GroundPathFollowerSettingsData) (n : nat) :
  groundSettings (this s) = Some gs ->
  (exists s',
      UpdateAutoPilot ext s = Returned (tt, s') /\
      path_time (pathStatus s') = path_time (pathStatus s) /\
      path_time (obj_PathStatus (uavo s')) = path_time (pathStatus s)) /\
  (exists s',
      cycles ext n s = Returned (tt, s') /\
      path_time (pathStatus s') = path_time (pathStatus s)) /\
  (mActive (this s) = false ->
   exists s',
     (Activate ;; cycles ext n) s = Returned (tt, s') /\
     mActive (this s') = true /\
     path_time (pathStatus s') = F32.zero).
Proof.
  intros Hgs. split; [|split].
  - destruct (UpdateAutoPilot_keeps ext s gs Hgs)
      as (s' & Hrun & _ & _ & Hpt & Hobj).
    exists s'. auto.
  - destruct (cycles_keep ext n s gs Hgs) as (s' & Hrun & _ & _ & Hpt).
    exists s'. auto.
  - intros Hin.
    destruct (Activate_inactive_Returned s gs Hgs Hin)
      as (s1 & Hrun1 & Hthis1 & Hps1 & _).
    assert (Hgs1 : groundSettings (this s1) = Some gs)
      by (rewrite Hthis1; reflexivity).
    assert (Hact1 : mActive (this s1) = true)
      by (rewrite Hthis1; reflexivity).
    assert (Hpt1 : path_time (pathStatus s1) = F32.zero)
      by (rewrite Hps1; reflexivity).
    destruct (cycles_keep ext n s1 gs Hgs1) as (s' & Hrun & _ & Hact' & Hpt').
    exists s'. rewrite (bind_Returned _ _ _ _ _ Hrun1).
    split; [exact Hrun|]. rewrite Hact', Hpt'. auto.
Qed.

Lemma path_time_is_held_witness :
  (exists s',
      UpdateAutoPilot Sample.ext Sample.active = Returned (tt, s') /\
      path_time (pathStatus s') = path_time (pathStatus Sample.active) /\
      path_time (obj_PathStatus (uavo s'))
      = path_time (pathStatus Sample.active)) /\
  (exists s',
     (Activate ;; cycles Sample.ext 3) Sample.initialized = Returned (tt, s') /\
     mActive (this s') = true /\
     path_time (pathStatus s') = F32.zero).
Proof.
  split.
  - exact (proj1 (path_time_is_held Sample.ext Sample.active
                    Sample.settings 3 eq_refl)).
  - exact (proj2 (proj2 (path_time_is_held Sample.ext Sample.initialized
                           Sample.settings 3 eq_refl)) eq_refl).
Defined.

(** C2, the claim as stated, fails: the sample controller is active with a
    period of 100 ms, and a cycle leaves the path time at 0 instead of
    0 + 0.1. *)
Lemma path_time_not_advanced :
  mActive (this Sample.active) = true /\
  ne_dT (controlNE (this Sample.active))
  = F32.div (F32.of_Z 100) (F32.of_Z 1000) /\
  exists s',
    UpdateAutoPilot Sample.ext Sample.active = Returned (tt, s') /\
    path_time (pathStatus s')
    <> F32.add (path_time (pathStatus Sample.active))
               (ne_dT (controlNE (this Sample.active))).
Proof.
  split; [reflexivity|]. split; [reflexivity|].
  eexists. split; [vm_compute; reflexivity|].
  vm_compute. discriminate.
Qed.

(** C1 (as the code has it): [path_progress] hands back a progress
    structure and nothing else, so no cycle can learn of a geometry fault.
    Every cycle of an initialised controller returns with health flag 1 and
    the guidance alarm OK, publishes the course and thrust mapped from the
    command of the cascade after the path velocity step, and leaves the
    path time where it was. *)
Theorem cycle_has_no_fault_channel (ext : Externals) (s : Machine)
        (gs : GroundPathFollowerSettingsData) :
  groundSettings (this s) = Some gs ->
  exists s1 s2 s',
    updatePathVelocity ext (CourseFeedForward gs) s = Returned (tt, s1) /\
    updateAutoPilotGround ext s = Returned (1, s2) /\
    UpdateAutoPilot ext s = Returned (tt, s') /\
    alarm_GUIDANCE (uavo s') = SYSTEMALARMS_ALARM_OK /\
    (let cmd := fst (NE.GetNECommand (innerStage ext) (controlNE (this s1))) in
     Yaw (obj_StabilizationDesired (uavo s'))
     = RAD2DEG ext (atan2f ext (snd cmd) (fst cmd)) /\
     Thrust (obj_StabilizationDesired (uavo s'))
     = boundf (magnitude (fst cmd) (snd cmd))
              (Min (ThrustLimit gs)) (Max (ThrustLimit gs))) /\
    path_time (pathStatus s') = path_time (pathStatus s).
Proof.
  intros Hgs.
  destruct (UpdateAutoPilot_Returned ext s gs Hgs)
    as (s1 & s2 & s' & H1 & H2 & Hg & Hrun & _ & _ & Hps & _ & Hsd & _ & Hal).
  destruct (updatePathVelocity_total ext (CourseFeedForward gs) s)
    as (s1' & H1' & Hgs1 & _ & _ & Hpt & _).
  rewrite H1 in H1'. injection H1' as <-.
  rewrite Hgs in Hgs1.
  destruct (updateGroundDesiredAttitude_Returned ext s1 gs Hgs1)
    as (s2' & H2' & Hd & _).
  rewrite H2 in H2'. injection H2' as <-.
  exists s1, s2, s'.
  rewrite Hsd, Hd, Hps, Hpt. cbn. auto 8.
Qed.

Lemma cycle_has_no_fault_channel_witness :
  exists s',
    UpdateAutoPilot Sample.ext Sample.active = Returned (tt, s') /\
    alarm_GUIDANCE (uavo s') = SYSTEMALARMS_ALARM_OK /\
    path_time (pathStatus s') = path_time (pathStatus Sample.active).
Proof.
  destruct (cycle_has_no_fault_channel Sample.ext Sample.active
              Sample.settings eq_refl)
    as (s1 & s2 & s' & _ & _ & Hrun & Hal & _ & Hpt).
  exists s'. auto.
Defined.

(** C1, the claim as stated, fails: the sample path has length zero, and
    the cycle on it has health flag 1, sets the alarm to OK and publishes a
    thrust of 1, not the zero command. *)
Lemma degenerate_path_cycle_is_healthy :
  degenerate (pathDesired Sample.active) /\
  (exists s2,
      updateAutoPilotGround Sample.ext Sample.active = Returned (1, s2)) /\
  exists s',
    UpdateAutoPilot Sample.ext Sample.active = Returned (tt, s') /\
    alarm_GUIDANCE (uavo s') = SYSTEMALARMS_ALARM_OK /\
    Thrust (obj_StabilizationDesired (uavo s')) = F32.of_Z 1 /\
    ~ zero_command (obj_StabilizationDesired (uavo s')).
Proof.
  split; [reflexivity|]. split.
  - eexists. vm_compute. reflexivity.
  - eexists. split; [vm_compute; reflexivity|].
    split; [reflexivity|]. split; [reflexivity|].
    intros [_ H]. vm_compute in H. discriminate H.
Qed.

(** * Further properties of the controller *)

(** ** What each call touches *)

(** The whole effect of one cycle on an initialised controller, apart from
    the cascade object and the two published commands. *)
Lemma UpdateAutoPilot_frame (ext : Externals) (s : Machine) gs :
  groundSettings (this s) = Some gs ->
  exists s',
    UpdateAutoPilot ext s = Returned (tt, s') /\
    groundSettings (this s') = Some gs /\
    mActive (this s') = mActive (this s) /\
    mMode (this s') = mMode (this s) /\
    pathDesired s' = pathDesired s /\
    obj_PositionState (uavo s') = obj_PositionState (uavo s) /\
    obj_VelocityState (uavo s') = obj_VelocityState (uavo s) /\
    obj_PathStatus (uavo s') = pathStatus s' /\
    pathStatus s'
    = with_progress
        (path_progress ext (pathDesired s)
           (lookahead (obj_PositionState (uavo s))
                      (obj_VelocityState (uavo s)) (CourseFeedForward gs))
           false)
        (pathStatus s).
Proof.
  intros Hgs. run. rewrite Hgs. cbn. rewrite Hgs. cbn.
  eexists. split; [reflexivity|]. cbn. rewrite Hgs. repeat split.
Qed.

Lemma UpdateAutoPilot_null (ext : Externals) (s : Machine) :
  groundSettings (this s) = None ->
  UpdateAutoPilot ext s = Halted NullDereference.
Proof. intros Hgs. run. rewrite Hgs. reflexivity. Qed.

(** X1: Deactivate returns on every state, initialised or not - it never
    reads the settings.  Afterwards the controller is inactive and the
    recorded mode, the settings pointer, the path and the object store are
    as before; when it was active, the path time is zero and the rest of
    the path status is untouched. *)
Theorem Deactivate_always_returns (s : Machine) :
  exists s',
    Deactivate s = Returned (tt, s') /\
    mActive (this s') = false /\
    mMode (this s') = mMode (this s) /\
    groundSettings (this s') = groundSettings (this s) /\
    pathDesired s' = pathDesired s /\
    uavo s' = uavo s /\
    (mActive (this s) = true ->
     pathStatus s' = with_path_time F32.zero (pathStatus s)).
Proof.
  unfold Deactivate.
  rewrite (bind_Returned _ _ s (mActive (this s)) s eq_refl).
  destruct (mActive (this s)) eqn:Hact.
  - eexists. split; [reflexivity|]. cbn. auto 7.
  - exists s. split; [reflexivity|]. repeat split; try assumption.
    discriminate.
Qed.

Lemma Deactivate_always_returns_witness :
  exists s',
    Deactivate Sample.active = Returned (tt, s') /\
    mActive (this s') = false /\
    pathStatus s' = with_path_time F32.zero (pathStatus Sample.active).
Proof.
  destruct (Deactivate_always_returns Sample.active)
    as (s' & Hrun & Hact & _ & _ & _ & _ & Hps).
  exists s'. split; [exact Hrun|]. split; [exact Hact|].
  exact (Hps eq_refl).
Defined.

(** X2: no lifecycle call publishes anything.  Whenever Initialize,
    Activate, Deactivate or SettingsUpdated returns, the object store - the
    published PathStatus with its path time, the desired velocity, the
    stabilization command, the guidance alarm - and the path are exactly as
    before: the path-time reset reaches the PathStatus object only with the
    next cycle. *)
Theorem lifecycle_never_publishes (s s' : Machine) :
  (forall ptr r, Initialize ptr s = Returned (r, s') ->
                 uavo s' = uavo s /\ pathDesired s' = pathDesired s) /\
  (Activate s = Returned (tt, s') ->
   uavo s' = uavo s /\ pathDesired s' = pathDesired s) /\
  (Deactivate s = Returned (tt, s') ->
   uavo s' = uavo s /\ pathDesired s' = pathDesired s) /\
  (SettingsUpdated s = Returned (tt, s') ->
   uavo s' = uavo s /\ pathDesired s' = pathDesired s).
Proof.
  split; [|split; [|split]].
  - intros [gs|] r H.
    + revert H. run. intros H. injection H as _ <-. cbn. auto.
    + discriminate H.
  - intros H. destruct (mActive (this s)) eqn:Hact.
    + unfold Activate in H.
      rewrite (bind_Returned _ _ s (mActive (this s)) s eq_refl), Hact in H.
      injection H as <-. auto.
    + destruct (groundSettings (this s)) as [gs|] eqn:Hgs.
      * destruct (Activate_inactive_Returned s gs Hgs Hact)
          as (t & Hrun & _ & _ & Hpd & Huavo).
        rewrite Hrun in H. injection H as <-. auto.
      * rewrite (Activate_null_Halted s Hgs Hact) in H. discriminate H.
  - intros H. unfold Deactivate in H.
    rewrite (bind_Returned _ _ s (mActive (this s)) s eq_refl) in H.
    destruct (mActive (this s)).
    + revert H. run. intros H. injection H as <-. auto.
    + injection H as <-. auto.
  - intros H. destruct (groundSettings (this s)) as [gs|] eqn:Hgs.
    + rewrite (SettingsUpdated_Returned s gs Hgs) in H.
      injection H as <-. auto.
    + rewrite (SettingsUpdated_null s Hgs) in H. discriminate H.
Qed.

(** The stale path status of the sample (path time 7) is still the
    published one after Initialize and Activate, and after a Deactivate or
    a SettingsUpdated on top. *)
Lemma lifecycle_never_publishes_witness :
  uavo Sample.initialized = uavo Sample.constructed /\
  uavo Sample.active = uavo Sample.initialized /\
  path_time (obj_PathStatus (uavo Sample.active)) = F32.of_Z 7 /\
  path_time (pathStatus Sample.active) = F32.zero /\
  (exists s', Deactivate Sample.active = Returned (tt, s') /\
              uavo s' = uavo Sample.active) /\
  (exists s', SettingsUpdated Sample.active = Returned (tt, s') /\
              uavo s' = uavo Sample.active).
Proof.
  split.
  { exact (proj1 (proj1
             (lifecycle_never_publishes Sample.constructed Sample.initialized)
             (Some Sample.settings) 0 eq_refl)). }
  split.
  { exact (proj1 (proj1 (proj2
             (lifecycle_never_publishes Sample.initialized Sample.active))
             eq_refl)). }
  split; [reflexivity|]. split; [reflexivity|]. split.
  - eexists. split; [reflexivity|].
    exact (proj1 (proj1 (proj2 (proj2
             (lifecycle_never_publishes Sample.active _))) eq_refl)).
  - eexists. split; [vm_compute; reflexivity|].
    exact (proj1 (proj2 (proj2 (proj2
             (lifecycle_never_publishes Sample.active _))) eq_refl)).
Defined.

(** X3: a cycle never changes the lifecycle or its inputs.  Whenever
    UpdateAutoPilot returns, the active flag, the recorded mode, the
    settings pointer, the path, the position and the velocity objects are
    exactly as it found them. *)
Theorem cycle_keeps_lifecycle_and_inputs (ext : Externals) (s s' : Machine) :
  UpdateAutoPilot ext s = Returned (tt, s') ->
  mActive (this s') = mActive (this s) /\
  mMode (this s') = mMode (this s) /\
  groundSettings (this s') = groundSettings (this s) /\
  pathDesired s' = pathDesired s /\
  obj_PositionState (uavo s') = obj_PositionState (uavo s) /\
  obj_VelocityState (uavo s') = obj_VelocityState (uavo s).
Proof.
  intros H. destruct (groundSettings (this s)) as [gs|] eqn:Hgs.
  - destruct (UpdateAutoPilot_frame ext s gs Hgs)
      as (t & Hrun & Hg & Ha & Hm & Hpd & Hp & Hv & _).
    rewrite Hrun in H. injection H as <-. auto 7.
  - rewrite (UpdateAutoPilot_null ext s Hgs) in H. discriminate H.
Qed.

Lemma cycle_keeps_lifecycle_and_inputs_witness :
  exists s',
    UpdateAutoPilot Sample.ext Sample.active = Returned (tt, s') /\
    mActive (this s') = true /\
    mMode (this s') = 0 /\
    obj_PositionState (uavo s') = obj_PositionState (uavo Sample.active).
Proof.
  destruct (UpdateAutoPilot_frame Sample.ext Sample.active Sample.settings
              eq_refl) as (s' & Hrun & _).
  exists s'. split; [exact Hrun|].
  destruct (cycle_keeps_lifecycle_and_inputs Sample.ext Sample.active s' Hrun)
    as (Ha & Hm & _ & _ & Hp & _).
  rewrite Ha, Hm. auto.
Defined.

(** X4: after every cycle of an initialised controller the published
    PathStatus object is the controller's path status, and its error,
    progress and direction fields are the path engine's answer at the
    lookahead point taken with the settings' CourseFeedForward, in 2D mode
    (mode3D false); path time and Status are carried over. *)
Theorem cycle_publishes_path_status (ext : Externals) (s : Machine)
        (gs : GroundPathFollowerSettingsData) :
  groundSettings (this s) = Some gs ->
  exists s',
    UpdateAutoPilot ext s = Returned (tt, s') /\
    obj_PathStatus (uavo s') = pathStatus s' /\
    pathStatus s'
    = with_progress
        (path_progress ext (pathDesired s)
           (lookahead (obj_PositionState (uavo s))
                      (obj_VelocityState (uavo s)) (CourseFeedForward gs))
           false)
        (pathStatus s).
Proof.
  intros Hgs.
  destruct (UpdateAutoPilot_frame ext s gs Hgs)
    as (s' & Hrun & _ & _ & _ & _ & _ & _ & Hobj & Hps).
  exists s'. auto.
Qed.

Lemma cycle_publishes_path_status_witness :
  exists s',
    UpdateAutoPilot Sample.ext Sample.active = Returned (tt, s') /\
    obj_PathStatus (uavo s') = pathStatus s' /\
    error (obj_PathStatus (uavo s')) = F32.of_Z 3.
Proof.
  destruct (cycle_publishes_path_status Sample.ext Sample.active
              Sample.settings eq_refl) as (s' & Hrun & Hobj & Hps).
  exists s'. split; [exact Hrun|]. split; [exact Hobj|].
  rewrite Hobj, Hps. vm_compute. reflexivity.
Defined.

(** ** What a cycle depends on *)

(** X5: the cycle has no activation guard.  UpdateAutoPilot never reads the
    active flag: on an initialised controller it returns and publishes the
    same objects whether the controller is active or not, and the states it
    leaves differ in that flag only. *)
Theorem cycle_ignores_active_flag (ext : Externals) (s : Machine)
        (gs : GroundPathFollowerSettingsData) (b : bool) :
  groundSettings (this s) = Some gs ->
  exists s',
    UpdateAutoPilot ext s = Returned (tt, s') /\
    UpdateAutoPilot ext (set_this (with_mActive b) s)
    = Returned (tt, set_this (with_mActive b) s').
Proof.
  intros Hgs. run. rewrite Hgs. cbn. rewrite Hgs. cbn.
  eexists. split; reflexivity.
Qed.

(** The sample controller, initialised but never activated, runs a cycle
    all the same. *)
Lemma cycle_ignores_active_flag_witness :
  mActive (this Sample.initialized) = false /\
  exists s',
    UpdateAutoPilot Sample.ext Sample.initialized = Returned (tt, s') /\
    UpdateAutoPilot Sample.ext (set_this (with_mActive true) Sample.initialized)
    = Returned (tt, set_this (with_mActive true) s').
Proof.
  split; [reflexivity|].
  exact (cycle_ignores_active_flag Sample.ext Sample.initialized
           Sample.settings true eq_refl).
Defined.

(** X6: of the settings block a cycle reads CourseFeedForward and
    ThrustLimit, and nothing else.  Two settings blocks that agree on these
    two fields give the same cycle: the same objects published, the same
    cascade state, whatever the gains, the period, the velocity limit and
    the velocity feed-forward in the blocks are - those reach the cycle
    only through SettingsUpdated or Activate. *)
Theorem cycle_reads_two_settings (ext : Externals) (s : Machine)
        (gs1 gs2 : GroundPathFollowerSettingsData) :
  CourseFeedForward gs1 = CourseFeedForward gs2 ->
  ThrustLimit gs1 = ThrustLimit gs2 ->
  exists s1 s2,
    UpdateAutoPilot ext (set_this (with_groundSettings (Some gs1)) s)
    = Returned (tt, s1) /\
    UpdateAutoPilot ext (set_this (with_groundSettings (Some gs2)) s)
    = Returned (tt, s2) /\
    s2 = set_this (with_groundSettings (Some gs2)) s1 /\
    controlNE (this s2) = controlNE (this s1) /\
    pathStatus s2 = pathStatus s1 /\
    uavo s2 = uavo s1.
Proof.
  intros Hff Htl. run. rewrite Hff, Htl.
  eexists. eexists. split; [reflexivity|]. split; [reflexivity|].
  cbn. repeat split.
Qed.

Lemma cycle_reads_two_settings_witness :
  HorizontalPosP Sample.settings <> HorizontalPosP Sample.settings_retuned /\
  exists s1 s2,
    UpdateAutoPilot Sample.ext Sample.active = Returned (tt, s1) /\
    UpdateAutoPilot Sample.ext
      (set_this (write_settings Sample.settings_retuned) Sample.active)
    = Returned (tt, s2) /\
    uavo s2 = uavo s1.
Proof.
  split; [vm_compute; discriminate|].
  destruct (cycle_reads_two_settings Sample.ext Sample.active
              Sample.settings Sample.settings_retuned eq_refl eq_refl)
    as (s1 & s2 & H1 & H2 & _ & _ & _ & Hu).
  exists s1, s2. split; [exact H1|]. split; [exact H2|]. exact Hu.
Defined.

(** X7: before Initialize nothing that needs the settings completes.  While
    the settings pointer is null - as the constructor leaves it -
    SettingsUpdated, the two autopilot steps and UpdateAutoPilot stop at
    the null pointer, and so does Activate on an inactive controller;
    Deactivate returns and leaves the pointer null. *)
Theorem null_settings_stop_everything (ext : Externals) (s : Machine) :
  groundSettings (this s) = None ->
  SettingsUpdated s = Halted NullDereference /\
  updateGroundDesiredAttitude ext s = Halted NullDereference /\
  updateAutoPilotGround ext s = Halted NullDereference /\
  UpdateAutoPilot ext s = Halted NullDereference /\
  (mActive (this s) = false -> Activate s = Halted NullDereference) /\
  (exists s', Deactivate s = Returned (tt, s')
              /\ groundSettings (this s') = None).
Proof.
  intros Hgs.
  split; [apply SettingsUpdated_null; exact Hgs|].
  split; [run; rewrite Hgs; reflexivity|].
  split; [run; rewrite Hgs; reflexivity|].
  split; [apply UpdateAutoPilot_null; exact Hgs|].
  split; [intros Hin; apply Activate_null_Halted; assumption|].
  unfold Deactivate.
  rewrite (bind_Returned _ _ s (mActive (this s)) s eq_refl).
  destruct (mActive (this s)).
  - eexists. split; [reflexivity|]. exact Hgs.
  - exists s. split; [reflexivity|]. exact Hgs.
Qed.

Lemma null_settings_stop_everything_witness :
  groundSettings (GroundDriveController_new 0) = None /\
  Activate Sample.constructed = Halted NullDereference /\
  UpdateAutoPilot Sample.ext Sample.constructed = Halted NullDereference.
Proof.
  split; [reflexivity|].
  destruct (null_settings_stop_everything Sample.ext Sample.constructed
              eq_refl) as (_ & _ & _ & Hc & Ha & _).
  split; [exact (Ha eq_refl)|exact Hc].
Defined.

(** ** Sequences of calls *)

(** One call or outside write on an initialised controller: it returns,
    the settings pointer stays set, and the lifecycle moves as the
    two-state machine says. *)
Lemma step_call_sound (ext : Externals) (c : call) (s : Machine) gs :
  groundSettings (this s) = Some gs ->
  exists s' gs',
    step_call ext c s = Returned (tt, s') /\
    groundSettings (this s') = Some gs' /\
    lifecycle_of s' = lifecycle_step c (lifecycle_of s).
Proof.
  intros Hgs. destruct c as [g| | | | | | | |p|g|p v]; cbn [step_call].
  - eexists. exists g. split; [run; reflexivity|]. split; reflexivity.
  - destruct (mActive (this s)) eqn:Hact.
    + exists s, gs. split; [apply Activate_active_Returned; exact Hact|].
      split; [exact Hgs|].
      unfold lifecycle_step, lifecycle_of. cbn. rewrite Hact. reflexivity.
    + destruct (Activate_inactive_Returned s gs Hgs Hact)
        as (s' & Hrun & Hthis & _ & Hpd & _).
      exists s', gs. split; [exact Hrun|].
      unfold lifecycle_step, lifecycle_of. cbn.
      rewrite Hthis, Hpd, Hact. cbn. split; reflexivity.
  - unfold Deactivate.
    rewrite (bind_Returned _ _ s (mActive (this s)) s eq_refl).
    destruct (mActive (this s)) eqn:Hact.
    + eexists. exists gs. split; [reflexivity|]. cbn.
      split; [exact Hgs|reflexivity].
    + exists s, gs. split; [reflexivity|]. split; [exact Hgs|].
      unfold lifecycle_step, lifecycle_of. cbn. rewrite Hact. reflexivity.
  - eexists. exists gs.
    split; [apply SettingsUpdated_Returned; exact Hgs|]. cbn.
    split; [exact Hgs|reflexivity].
  - exists s, gs. split; [reflexivity|]. split; [exact Hgs|reflexivity].
  - destruct (UpdateAutoPilot_frame ext s gs Hgs)
      as (s' & Hrun & Hg & Ha & Hm & Hpd & _).
    exists s', gs. split; [exact Hrun|]. split; [exact Hg|].
    unfold lifecycle_step, lifecycle_of. rewrite Ha, Hm, Hpd. reflexivity.
  - exists s, gs. split; [reflexivity|]. split; [exact Hgs|reflexivity].
  - exists s, gs. split; [reflexivity|]. split; [exact Hgs|reflexivity].
  - eexists. exists gs. split; [reflexivity|]. cbn.
    split; [exact Hgs|reflexivity].
  - eexists. exists g. split; [reflexivity|].
    unfold lifecycle_of, set_this, write_settings. cbn.
    rewrite Hgs. cbn. split; reflexivity.
  - eexists. exists gs. split; [reflexivity|]. cbn.
    split; [exact Hgs|reflexivity].
Qed.

Lemma run_calls_sound (ext : Externals) (l : list call) :
  forall (s : Machine) gs,
    groundSettings (this s) = Some gs ->
    exists s' gs',
      run_calls ext l s = Returned (tt, s') /\
      groundSettings (this s') = Some gs' /\
      lifecycle_of s' = lifecycle_run l (lifecycle_of s).
Proof.
  induction l as [|c l IH]; intros s gs Hgs.
  - exists s, gs. cbn. auto.
  - destruct (step_call_sound ext c s gs Hgs) as (s1 & gs1 & Hrun1 & Hgs1 & Hl1).
    destruct (IH s1 gs1 Hgs1) as (s' & gs' & Hrun & Hgs' & Hl).
    exists s', gs'. cbn [run_calls lifecycle_run].
    rewrite (bind_Returned _ _ _ _ _ Hrun1), <- Hl1.
    split; [exact Hrun|]. split; [exact Hgs'|exact Hl].
Qed.

(** X8: once initialised, always running.  From a state with the settings
    pointer set, every sequence of member calls (Initialize with a settings
    block, Activate, Deactivate, SettingsUpdated, ObjectiveUpdated,
    UpdateAutoPilot, IsActive, Mode) and of outside writes to the path, the
    settings block and the position and velocity objects runs to its end:
    no call halts, and the settings pointer is still set afterwards. *)
Theorem initialised_calls_never_halt (ext : Externals) (l : list call)
        (s : Machine) (gs : GroundPathFollowerSettingsData) :
  groundSettings (this s) = Some gs ->
  exists s',
    run_calls ext l s = Returned (tt, s') /\
    groundSettings (this s') <> None.
Proof.
  intros Hgs.
  destruct (run_calls_sound ext l s gs Hgs) as (s' & gs' & Hrun & Hgs' & _).
  exists s'. split; [exact Hrun|]. rewrite Hgs'. discriminate.
Qed.

Lemma initialised_calls_never_halt_witness :
  exists s',
    run_calls Sample.ext Sample.session Sample.initialized = Returned (tt, s') /\
    groundSettings (this s') <> None.
Proof.
  exact (initialised_calls_never_halt Sample.ext Sample.session
           Sample.initialized Sample.settings eq_refl).
Defined.

(** X9: IsActive and Mode follow a two-state machine.  After any such
    sequence on an initialised controller, IsActive answers 1 exactly when
    the last of the Activate and Deactivate calls was an Activate (or there
    was none and the controller was active), and Mode answers the mode the
    path had at the last Activate that found the controller inactive:
    a new path, cycles, settings changes, a repeated Activate and a
    Deactivate all leave the recorded mode alone.  Neither query changes
    the state. *)
Theorem lifecycle_follows_two_state_machine (ext : Externals) (l : list call)
        (s : Machine) (gs : GroundPathFollowerSettingsData) :
  groundSettings (this s) = Some gs ->
  exists s',
    run_calls ext l s = Returned (tt, s') /\
    IsActive s'
    = Returned ((if lc_active (lifecycle_run l (lifecycle_of s))
                 then 1 else 0), s') /\
    Mode s' = Returned (lc_mode (lifecycle_run l (lifecycle_of s)), s').
Proof.
  intros Hgs.
  destruct (run_calls_sound ext l s gs Hgs) as (s' & gs' & Hrun & _ & Hl).
  exists s'. split; [exact Hrun|].
  rewrite <- Hl. split; reflexivity.
Qed.

(** In the sample session the path changes to mode 7 while the controller
    is active; Mode keeps answering 0 until the controller has been
    deactivated and activated again. *)
Lemma lifecycle_follows_two_state_machine_witness :
  (exists s',
      run_calls Sample.ext
        (CallActivate :: EnvPathDesired Sample.path_north :: CallActivate
         :: CallUpdateAutoPilot :: nil)%list Sample.initialized
      = Returned (tt, s') /\
      IsActive s' = Returned (1, s') /\ Mode s' = Returned (0, s')) /\
  (exists s',
      run_calls Sample.ext Sample.session Sample.initialized
      = Returned (tt, s') /\
      IsActive s' = Returned (1, s') /\ Mode s' = Returned (7, s')).
Proof.
  split.
  - exact (lifecycle_follows_two_state_machine Sample.ext _
             Sample.initialized Sample.settings eq_refl).
  - exact (lifecycle_follows_two_state_machine Sample.ext Sample.session
             Sample.initialized Sample.settings eq_refl).
Defined.

(** ** The look-ahead at the edges of binary32 *)

Lemma SFeqb_refl (x : float) : is_nan x = false -> SFeqb x x = true.
Proof.
  destruct x as [s|s| |s m e]; cbn; try discriminate; intros _.
  - reflexivity.
  - destruct s; reflexivity.
  - unfold SFeqb. cbn. rewrite Z.compare_refl.
    change (Pos.compare_cont Eq m m) with (Pos.compare m m).
    rewrite Pos.compare_refl. destruct s; reflexivity.
Qed.

Lemma add_mul_zero_horizon (p v k : float) :
  is_zero k = true -> is_finite v = true -> is_nan p = false ->
  SFeqb (F32.add p (F32.mul v k)) p = true.
Proof.
  intros Hk Hv Hp.
  destruct k as [sk|sk| |sk mk ek]; try discriminate Hk.
  destruct v as [sv|sv| |sv mv ev]; try discriminate Hv;
    destruct p as [sp|sp| |sp mp ep]; try discriminate Hp;
    cbn; try (destruct sp, (xorb sv sk); reflexivity);
    try (destruct sp; reflexivity);
    apply (SFeqb_refl (S754_finite sp mp ep)); reflexivity.
Qed.

Lemma add_mul_nan (p v k : float) :
  is_nan p || is_nan v || is_nan k
  || (negb (is_finite v) && is_zero k)
  || (is_zero v && negb (is_finite k)) = true ->
  is_nan (F32.add p (F32.mul v k)) = true.
Proof.
  destruct p as [sp|sp| |sp mp ep], v as [sv|sv| |sv mv ev],
           k as [sk|sk| |sk mk ek]; cbn; intros H;
    try discriminate H; try reflexivity.
Qed.

(** X10: a zero look-ahead horizon switches the look-ahead off.  With kFF
    zero (of either sign), a velocity that is neither NaN nor infinite and
    a position that is not NaN, the point the path velocity step hands to
    the path engine compares equal to the current position on all three
    axes. *)
Theorem zero_horizon_queries_position (ext : Externals) (kFF : float)
        (s : Machine) :
  let p := obj_PositionState (uavo s) in
  let v := obj_VelocityState (uavo s) in
  is_zero kFF = true ->
  is_finite (North v) && is_finite (East v) && is_finite (Down v) = true ->
  is_nan (North p) || is_nan (East p) || is_nan (Down p) = false ->
  exists q s',
    point_eqb q (point_of p) = true /\
    updatePathVelocity ext kFF s = Returned (tt, s') /\
    pathStatus s'
    = with_progress (path_progress ext (pathDesired s) q false) (pathStatus s).
Proof.
  cbn zeta. intros Hk Hv Hp.
  apply andb_true_iff in Hv. destruct Hv as [Hv Hvd].
  apply andb_true_iff in Hv. destruct Hv as [Hvn Hve].
  apply orb_false_iff in Hp. destruct Hp as [Hp Hpd].
  apply orb_false_iff in Hp. destruct Hp as [Hpn Hpe].
  exists (lookahead (obj_PositionState (uavo s))
                    (obj_VelocityState (uavo s)) kFF).
  eexists. split; [|split; [run; reflexivity|reflexivity]].
  unfold point_eqb, lookahead, point_of. cbn [fst snd].
  rewrite !add_mul_zero_horizon by assumption. reflexivity.
Qed.

Lemma zero_horizon_queries_position_witness :
  exists q s',
    point_eqb q (point_of (obj_PositionState (uavo Sample.active))) = true /\
    updatePathVelocity Sample.ext (S754_zero true) Sample.active
    = Returned (tt, s') /\
    pathStatus s'
    = with_progress
        (path_progress Sample.ext (pathDesired Sample.active) q false)
        (pathStatus Sample.active).
Proof.
  exact (zero_horizon_queries_position Sample.ext (S754_zero true)
           Sample.active eq_refl eq_refl eq_refl).
Defined.

(** X11: the look-ahead passes bad numbers on.  On each axis the coordinate
    handed to the path engine is a NaN as soon as the position coordinate,
    the velocity coordinate or kFF is a NaN, and also when an infinite
    velocity meets a zero kFF or a zero velocity an infinite kFF; the step
    still returns and writes the engine's answer into the path status. *)
Theorem lookahead_passes_nan_on (ext : Externals) (kFF : float) (s : Machine) :
  let p := obj_PositionState (uavo s) in
  let v := obj_VelocityState (uavo s) in
  let bad (pc vc : float) :=
    is_nan pc || is_nan vc || is_nan kFF
    || (negb (is_finite vc) && is_zero kFF)
    || (is_zero vc && negb (is_finite kFF)) in
  exists q s',
    updatePathVelocity ext kFF s = Returned (tt, s') /\
    pathStatus s'
    = with_progress (path_progress ext (pathDesired s) q false)
                    (pathStatus s) /\
    (bad (North p) (North v) = true -> is_nan (fst (fst q)) = true) /\
    (bad (East p) (East v) = true -> is_nan (snd (fst q)) = true) /\
    (bad (Down p) (Down v) = true -> is_nan (snd q) = true).
Proof.
  cbn zeta.
  exists (lookahead (obj_PositionState (uavo s))
                    (obj_VelocityState (uavo s)) kFF).
  eexists. split; [run; reflexivity|]. split; [reflexivity|].
  unfold lookahead. cbn [fst snd].
  repeat split; apply add_mul_nan.
Qed.

(** A NaN north velocity on the sample state. *)
Lemma lookahead_passes_nan_on_witness :
  exists (q : float * float * float) s',
    updatePathVelocity Sample.ext (F32.of_Z 1)
      (set_uavo (set_kinematics (mkNED (F32.of_Z (-3)) F32.zero F32.zero)
                                (mkNED S754_nan F32.zero F32.zero))
                Sample.active)
    = Returned (tt, s') /\
    pathStatus s'
    = with_progress
        (path_progress Sample.ext (pathDesired Sample.active) q false)
        (pathStatus Sample.active) /\
    is_nan (fst (fst q)) = true.
Proof.
  destruct (lookahead_passes_nan_on Sample.ext (F32.of_Z 1)
              (set_uavo (set_kinematics
                           (mkNED (F32.of_Z (-3)) F32.zero F32.zero)
                           (mkNED S754_nan F32.zero F32.zero))
                        Sample.active))
    as (q & s' & Hrun & Hps & Hn & _ & _).
  exists q, s'. split; [exact Hrun|]. split; [exact Hps|].
  exact (Hn eq_refl).
Defined.

(** ** Cycles on unchanged inputs *)

Lemma with_progress_twice (g : path_status) (p : PathStatusData) :
  with_progress g (with_progress g p) = with_progress g p.
Proof. reflexivity. Qed.

Lemma cycles_path_status (ext : Externals) (n : nat) :
  forall (s : Machine) gs,
    groundSettings (this s) = Some gs ->
    exists s',
      cycles ext (S n) s = Returned (tt, s') /\
      groundSettings (this s') = Some gs /\
      pathDesired s' = pathDesired s /\
      obj_PositionState (uavo s') = obj_PositionState (uavo s) /\
      obj_VelocityState (uavo s') = obj_VelocityState (uavo s) /\
      obj_PathStatus (uavo s') = pathStatus s' /\
      pathStatus s'
      = with_progress
          (path_progress ext (pathDesired s)
             (lookahead (obj_PositionState (uavo s))
                        (obj_VelocityState (uavo s)) (CourseFeedForward gs))
             false)
          (pathStatus s).
Proof.
  induction n as [|n IH]; intros s gs Hgs;
    destruct (UpdateAutoPilot_frame ext s gs Hgs)
      as (s1 & Hrun1 & Hgs1 & _ & _ & Hpd1 & Hp1 & Hv1 & Hobj1 & Hps1).
  - exists s1. cbn [cycles].
    rewrite (bind_Returned _ _ _ _ _ Hrun1).
    split; [reflexivity|]. auto 7.
  - destruct (IH s1 gs Hgs1)
      as (s' & Hrun & Hgs' & Hpd & Hp & Hv & Hobj & Hps).
    exists s'.
    change (cycles ext (S (S n))) with (UpdateAutoPilot ext ;; cycles ext (S n)).
    rewrite (bind_Returned _ _ _ _ _ Hrun1).
    split; [exact Hrun|]. split; [exact Hgs'|].
    rewrite Hpd, Hp, Hv, Hobj, Hps, Hpd1, Hp1, Hv1, Hps1.
    rewrite with_progress_twice. repeat split.
Qed.

(** X12: the path status has no memory of earlier cycles.  On an
    initialised controller with path, position, velocity and settings left
    alone, any number of cycles in a row ends with the same path status,
    local and published, as a single cycle: what is published depends on
    the inputs of the last cycle only. *)
Theorem repeated_cycles_same_path_status (ext : Externals) (n : nat)
        (s : Machine) (gs : GroundPathFollowerSettingsData) :
  groundSettings (this s) = Some gs ->
  exists s1 sn,
    UpdateAutoPilot ext s = Returned (tt, s1) /\
    cycles ext (S n) s = Returned (tt, sn) /\
    pathStatus sn = pathStatus s1 /\
    obj_PathStatus (uavo sn) = obj_PathStatus (uavo s1).
Proof.
  intros Hgs.
  destruct (UpdateAutoPilot_frame ext s gs Hgs)
    as (s1 & Hrun1 & _ & _ & _ & _ & _ & _ & Hobj1 & Hps1).
  destruct (cycles_path_status ext n s gs Hgs)
    as (sn & Hrun & _ & _ & _ & _ & Hobj & Hps).
  exists s1, sn. split; [exact Hrun1|]. split; [exact Hrun|].
  rewrite Hobj, Hobj1, Hps, Hps1. split; reflexivity.
Qed.

Lemma repeated_cycles_same_path_status_witness :
  exists s1 sn,
    UpdateAutoPilot Sample.ext Sample.active = Returned (tt, s1) /\
    cycles Sample.ext 4 Sample.active = Returned (tt, sn) /\
    pathStatus sn = pathStatus s1 /\
    obj_PathStatus (uavo sn) = obj_PathStatus (uavo s1).
Proof.
  exact (repeated_cycles_same_path_status Sample.ext 3 Sample.active
           Sample.settings eq_refl).
Defined.
